(** * srcds_exporter: the scrape handler of [main.py], embedded and verified

    The development follows [src/main.py]:
    - Python text primitives used by the parsers ([str.split], [str.strip],
      [str.splitlines], [str.split(":", 1)], [float], [re.match]);
    - the metric dictionary [server_dict] (an insertion-ordered Python dict);
    - [_parse_stats], [_parse_status], [_parse_query];
    - [_get_target], [_rcon_query], [_server_down_response] and
      [request_handler];
    - the properties of the specification, one theorem each.

    Python [str] values are modelled by [string]; a character is a code point
    below 256.  Exceptions are values of [exn]; a statement that may raise
    returns a [result]. *)

From Stdlib Require Import String Ascii List ZArith NArith Lia Bool.
From Stdlib Require Import DecimalString DecimalPos DecimalN.
From Stdlib Require Import Floats.SpecFloat.
Import ListNotations.
Local Open Scope string_scope.
Local Open Scope list_scope.

Set Implicit Arguments.

(** ** Exceptions *)

(** The exception classes that occur in [main.py] and in the builtins it
    calls.  [OtherException] stands for any further subclass of [Exception]
    that the RCON library may raise. *)
Inductive exn : Type :=
| TargetSpecificationError (msg : string)
| TimeoutError
| ConnectionRefusedError
| NameError
| UnboundLocalError
| KeyError
| IndexError
| ValueError
| OtherException (msg : string).

Inductive result (A : Type) : Type :=
| Ok (a : A)
| Raise (e : exn).

Arguments Ok {A} a.
Arguments Raise {A} e.

Definition bind {A B : Type} (r : result A) (k : A -> result B) : result B :=
  match r with
  | Ok a => k a
  | Raise e => Raise e
  end.

Notation "x <- c ;; k" := (bind c (fun x => k))
  (at level 61, c at next level, right associativity).

(** ** Characters *)

Definition ord (c : ascii) : N := N_of_ascii c.

Definition in_range (lo hi : N) (c : ascii) : bool :=
  ((lo <=? ord c) && (ord c <=? hi))%N.

(** [str.isspace] on one character (CPython's [Py_UNICODE_ISSPACE]),
    for code points below 256: TAB..CR, FS..US, SPACE, NEL, NBSP. *)
Definition isspace (c : ascii) : bool :=
  in_range 9 13 c || in_range 28 32 c || (ord c =? 133)%N || (ord c =? 160)%N.

(** The regular-expression class [\d] on a Unicode pattern: a decimal digit;
    below 256 these are ["0"].. ["9"]. *)
Definition isdecimal (c : ascii) : bool := in_range 48 57 c.

(** Line boundaries of [str.splitlines]: LF, VT, FF, CR, FS, GS, RS, NEL. *)
Definition is_linebreak (c : ascii) : bool :=
  in_range 10 13 c || in_range 28 30 c || (ord c =? 133)%N.

Definition CR : ascii := ascii_of_N 13.
Definition LF : ascii := ascii_of_N 10.

(** ** [str] methods *)

Fixpoint str_lstrip (s : string) : string :=
  match s with
  | "" => ""
  | String c s' => if isspace c then str_lstrip s' else s
  end.

Fixpoint str_rstrip (s : string) : string :=
  match s with
  | "" => ""
  | String c s' =>
      match str_rstrip s' with
      | "" => if isspace c then "" else String c ""
      | r => String c r
      end
  end.

(** [s.strip()] *)
Definition str_strip (s : string) : string := str_rstrip (str_lstrip s).

(** [s.split()]: the maximal runs of non-whitespace characters. *)
Fixpoint str_split (s : string) : list string :=
  match s with
  | "" => []
  | String c s' =>
      if isspace c then str_split s'
      else
        match s' with
        | "" => [String c ""]
        | String c' _ =>
            if isspace c' then String c "" :: str_split s'
            else
              match str_split s' with
              | w :: ws => String c w :: ws
              | [] => [String c ""]
              end
        end
  end.

(** [s.splitlines()]: lines without their terminators; CR LF is one
    terminator; no empty last line after a final terminator. *)
Fixpoint str_splitlines (s : string) : list string :=
  match s with
  | "" => []
  | String c s' =>
      if is_linebreak c then
        "" :: (if Ascii.eqb c CR
               then match s' with
                    | String c' s'' =>
                        if Ascii.eqb c' LF then str_splitlines s''
                        else str_splitlines s'
                    | "" => str_splitlines s'
                    end
               else str_splitlines s')
      else
        match str_splitlines s' with
        | l :: ls => String c l :: ls
        | [] => [String c ""]
        end
  end.

(** [s.partition(sep)] for a one-character separator, when it occurs. *)
Fixpoint str_partition (sep : ascii) (s : string) : option (string * string) :=
  match s with
  | "" => None
  | String c s' =>
      if Ascii.eqb c sep then Some ("", s')
      else
        match str_partition sep s' with
        | Some (a, b) => Some (String c a, b)
        | None => None
        end
  end.

(** [s.split(sep, 1)] for a one-character separator. *)
Definition str_split1 (sep : ascii) (s : string) : list string :=
  match str_partition sep s with
  | Some (a, b) => [a; b]
  | None => [s]
  end.

(** Does the character occur in the string? *)
Fixpoint str_contains (c : ascii) (s : string) : bool :=
  match s with
  | "" => false
  | String c' s' => Ascii.eqb c' c || str_contains c s'
  end.

(** ** The builtin [float] on a string

    CPython's [float(s)]: surrounding whitespace is dropped, single
    underscores are allowed between digits, and what remains is an optional
    sign followed by [inf], [infinity], [nan] (in any case) or by a decimal
    numeral with an optional exponent.  The value is the binary64 number
    nearest to the decimal (ties to even), an infinity on overflow.  A
    binary64 value is a [spec_float] with 53 bits of precision. *)

Definition prec : Z := 53.
Definition emax : Z := 1024.

Definition digit_val (c : ascii) : Z := Z.of_N (ord c) - 48.

(** A maximal run of decimal digits: the accumulated value, the number of
    digits read and the rest of the text. *)
Fixpoint scan_digits (s : string) (acc : Z) (n : Z) : Z * Z * string :=
  match s with
  | "" => (acc, n, "")
  | String c s' =>
      if in_range 48 57 c
      then scan_digits s' (10 * acc + digit_val c) (n + 1)
      else (acc, n, s)
  end.

Definition scan_sign (s : string) : bool * string :=
  match s with
  | String "-" s' => (true, s')
  | String "+" s' => (false, s')
  | _ => (false, s)
  end.

Definition to_lower (c : ascii) : ascii :=
  if in_range 65 90 c then ascii_of_N (ord c + 32) else c.

Fixpoint str_lower (s : string) : string :=
  match s with
  | "" => ""
  | String c s' => String (to_lower c) (str_lower s')
  end.

(** The binary64 number nearest to [m * 10 ^ e], for [0 <= m].  For a
    negative [e] the quotient is computed with at least 64 significant bits
    and a sticky last bit, so that the final rounding is the rounding of the
    exact quotient. *)
Definition float_of_decimal (neg : bool) (m e : Z) : spec_float :=
  if (m =? 0)%Z then S754_zero neg
  else
    let sign (x : Z) := if neg then (- x)%Z else x in
    if (0 <=? e)%Z then
      binary_normalize prec emax (sign (m * 10 ^ e)%Z) 0 false
    else
      let d := (10 ^ (- e))%Z in
      let k := (Z.log2_up d + 64)%Z in
      let q := (m * 2 ^ k / d)%Z in
      let r := (m * 2 ^ k mod d)%Z in
      let sticky := if (r =? 0)%Z then 0%Z else 1%Z in
      binary_normalize prec emax (sign (2 * q + sticky)%Z) (- (k + 1)) false.

(** The exponent part: nothing, or [e]/[E], an optional sign and at least
    one digit, up to the end of the text. *)
Definition scan_exponent (s : string) : option Z :=
  match s with
  | "" => Some 0%Z
  | String c r =>
      if Ascii.eqb (to_lower c) "e" then
        let '(eneg, r1) := scan_sign r in
        let '(ev, ne, r2) := scan_digits r1 0 0 in
        if (ne =? 0)%Z then None
        else
          match r2 with
          | "" => Some (if eneg then (- ev)%Z else ev)
          | _ => None
          end
      else None
  end.

(** Underscores: each one must stand between two digits; they are removed. *)
Fixpoint drop_underscores (prev : ascii) (s : string) : option string :=
  match s with
  | "" => if Ascii.eqb prev "_" then None else Some ""
  | String c s' =>
      if Ascii.eqb c "_" then
        if in_range 48 57 prev then drop_underscores c s' else None
      else if Ascii.eqb prev "_" && negb (in_range 48 57 c) then None
      else option_map (String c) (drop_underscores c s')
  end.

(** Whitespace recognised around a numeral: TAB..CR and SPACE, and the
    non-ASCII spaces, which [float] first turns into SPACE. *)
Definition float_space (c : ascii) : bool :=
  in_range 9 13 c || (ord c =? 32)%N || (ord c =? 133)%N || (ord c =? 160)%N.

Fixpoint float_lstrip (s : string) : string :=
  match s with
  | "" => ""
  | String c s' => if float_space c then float_lstrip s' else s
  end.

Fixpoint float_rstrip (s : string) : string :=
  match s with
  | "" => ""
  | String c s' =>
      match float_rstrip s' with
      | "" => if float_space c then "" else String c ""
      | r => String c r
      end
  end.

Definition parse_float (s : string) : result spec_float :=
  let '(neg, s1) := scan_sign s in
  let low := str_lower s1 in
  if String.eqb low "inf" || String.eqb low "infinity" then
    Ok (S754_infinity neg)
  else if String.eqb low "nan" then Ok S754_nan
  else
    let '(ip, ni, s2) := scan_digits s1 0 0 in
    let '(m, nf, s3) :=
      match s2 with
      | String "." r => scan_digits r ip 0
      | _ => (ip, 0%Z, s2)
      end in
    if (ni + nf =? 0)%Z then Raise ValueError
    else
      match scan_exponent s3 with
      | Some e => Ok (float_of_decimal neg m (e - nf))
      | None => Raise ValueError
      end.

(** [float(s)] for a [str] argument. *)
Definition py_float (s : string) : result spec_float :=
  match drop_underscores zero (float_rstrip (float_lstrip s)) with
  | Some t => parse_float t
  | None => Raise ValueError
  end.

(** ** Regular expressions: the fragment used by [_parse_status]

    A backtracking matcher in continuation-passing style, with the priorities
    of Python's [re]: [+] and [?] are greedy, and the first successful
    alternative in that order is the match.  [+] is only ever applied to a
    character class, so that is what [Plus] takes. *)

Inductive regex : Type :=
| Eps
| Lit (c : ascii)
| Class (p : ascii -> bool)
| Plus (p : ascii -> bool)
| Seq (r1 r2 : regex)
| Opt (r : regex)
| Named (name : string) (r : regex)
| Group (r : regex).

Infix ">>" := Seq (at level 62, right associativity).

(** A literal word. *)
Fixpoint lits (s : string) : regex :=
  match s with
  | "" => Eps
  | String c s' => Lit c >> lits s'
  end.

(** Named captures, most recent first. *)
Definition captures := list (string * string).

Fixpoint capture_get (name : string) (caps : captures) : option string :=
  match caps with
  | [] => None
  | (n, v) :: caps' => if String.eqb n name then Some v else capture_get name caps'
  end.

Fixpoint str_take (n : nat) (s : string) : string :=
  match n, s with
  | S n', String c s' => String c (str_take n' s')
  | _, _ => ""
  end.

(** The text matched between position [s] and the later position [s']. *)
Definition consumed (s s' : string) : string :=
  str_take (String.length s - String.length s') s.

Section Matcher.
Variable A : Type.

(** Greedy [p*]: the longest run first, then shorter ones. *)
Fixpoint star_match (p : ascii -> bool) (s : string)
         (k : string -> option A) : option A :=
  match s with
  | "" => k s
  | String c s' =>
      if p c then
        match star_match p s' k with
        | Some x => Some x
        | None => k s
        end
      else k s
  end.

Definition plus_match (p : ascii -> bool) (s : string)
           (k : string -> option A) : option A :=
  match s with
  | "" => None
  | String c s' => if p c then star_match p s' k else None
  end.

Fixpoint rmatch (r : regex) (s : string) (caps : captures)
         (k : string -> captures -> option A) : option A :=
  match r with
  | Eps => k s caps
  | Lit c =>
      match s with
      | String c' s' => if Ascii.eqb c' c then k s' caps else None
      | "" => None
      end
  | Class p =>
      match s with
      | String c' s' => if p c' then k s' caps else None
      | "" => None
      end
  | Plus p => plus_match p s (fun s' => k s' caps)
  | Seq r1 r2 => rmatch r1 s caps (fun s1 caps1 => rmatch r2 s1 caps1 k)
  | Opt r1 =>
      match rmatch r1 s caps k with
      | Some x => Some x
      | None => k s caps
      end
  | Named name r1 =>
      rmatch r1 s caps
             (fun s' caps' => k s' ((name, consumed s s') :: caps'))
  | Group r1 => rmatch r1 s caps k
  end.
End Matcher.

(** The names of the named groups, in the order of the pattern. *)
Fixpoint group_names (r : regex) : list string :=
  match r with
  | Seq r1 r2 => group_names r1 ++ group_names r2
  | Opt r1 | Group r1 => group_names r1
  | Named name r1 => name :: group_names r1
  | _ => []
  end.

(** [re.match(r, s)]: a match anchored at the start of [s] only. *)
Definition re_match (r : regex) (s : string) : option captures :=
  rmatch r s [] (fun _ caps => Some caps).

(** [m.groupdict()]: every named group, [None] for one that took no part. *)
Definition groupdict (r : regex) (m : captures) : list (string * option string) :=
  map (fun name => (name, capture_get name m)) (group_names r).

(** [(?P<players>\d+)\s+(humans,\s+)?((?P<bots>\d+)\s+bots\s+)?]
    [\((?P<max_players>\d+)(/\d)? max\)] *)
Definition players_re : regex :=
  Named "players" (Plus isdecimal) >> Plus isspace >>
  Opt (Group (lits "humans," >> Plus isspace)) >>
  Opt (Group (Named "bots" (Plus isdecimal) >> Plus isspace >>
              lits "bots" >> Plus isspace)) >>
  Lit "(" >> Named "max_players" (Plus isdecimal) >>
  Opt (Group (Lit "/" >> Class isdecimal)) >> lits " max)".

(** ** Values and the metric dictionary *)

Inductive pyval : Type :=
| VNone
| VStr (s : string)
| VInt (z : Z)
| VFloat (f : spec_float).

(** [server_dict]: a Python dict keeps its keys in insertion order, and an
    assignment to a key that is present replaces the value where it stands. *)
Definition dict := list (string * pyval).

Fixpoint dict_set (k : string) (v : pyval) (d : dict) : dict :=
  match d with
  | [] => [(k, v)]
  | (k', v') :: d' =>
      if String.eqb k' k then (k', v) :: d' else (k', v') :: dict_set k v d'
  end.

Fixpoint dict_get (k : string) (d : dict) : option pyval :=
  match d with
  | [] => None
  | (k', v') :: d' => if String.eqb k' k then Some v' else dict_get k d'
  end.

Definition dict_keys (d : dict) : list string := map fst d.

Definition dict_has (k : string) (d : dict) : bool :=
  existsb (String.eqb k) (dict_keys d).

(** ** Statements that update [server_dict] and may raise

    A computation takes the dictionary and gives a result or an exception,
    together with the dictionary as it stands at that point: an exception
    does not undo earlier assignments. *)

Definition M (A : Type) : Type := dict -> result A * dict.

Definition ret {A : Type} (a : A) : M A := fun d => (Ok a, d).

Definition raise {A : Type} (e : exn) : M A := fun d => (Raise e, d).

Definition lift {A : Type} (r : result A) : M A := fun d => (r, d).

Definition bindM {A B : Type} (m : M A) (k : A -> M B) : M B :=
  fun d =>
    match m d with
    | (Ok a, d') => k a d'
    | (Raise e, d') => (Raise e, d')
    end.

Notation "'do' x <- c ; k" := (bindM c (fun x => k))
  (at level 10, x name, c at level 100, k at level 200).
Notation "c ;; k" := (bindM c (fun _ => k))
  (at level 100, right associativity).

(** [server_dict[key] = value] *)
Definition setitem (key : string) (value : pyval) : M unit :=
  fun d => (Ok tt, dict_set key value d).

(** [for x in xs: body x] *)
Fixpoint for_each {X : Type} (xs : list X) (body : X -> M unit) : M unit :=
  match xs with
  | [] => ret tt
  | x :: xs' => body x ;; for_each xs' body
  end.

(** [l[i]] on a list *)
Definition list_getitem {X : Type} (l : list X) (i : nat) : result X :=
  match nth_error l i with
  | Some x => Ok x
  | None => Raise IndexError
  end.

(** [l[i] = x] on a list, for an index within range *)
Fixpoint list_setitem {X : Type} (l : list X) (i : nat) (x : X) : list X :=
  match l, i with
  | [], _ => []
  | _ :: l', O => x :: l'
  | y :: l', S i' => y :: list_setitem l' i' x
  end.

(** ** [_parse_stats] *)

Definition STATS_MAPPING : list (string * string) :=
  [ ("In", "NetIn");
    ("In_(KB/s)", "NetIn");
    ("Out", "NetOut");
    ("Out_(KB/s)", "NetOut");
    ("+-ms", "varms");
    ("~tick", "vartick");
    ("Svms", "svarms");
    ("Map_changes", "Maps") ].

(** [name in mapping.keys()] *)
Definition mapping_has (mapping : list (string * string)) (name : string) : bool :=
  existsb (fun kv => String.eqb (fst kv) name) mapping.

(** [mapping[name]] *)
Fixpoint mapping_getitem (mapping : list (string * string)) (name : string)
  : result string :=
  match mapping with
  | [] => Raise KeyError
  | (k, v) :: mapping' =>
      if String.eqb k name then Ok v else mapping_getitem mapping' name
  end.

(** The renaming loop
    [for i, name in enumerate(names): if name in STATS_MAPPING.keys(): names[i] = STATS_MAPPING[name]].
    The iteration reads position [i] of the list it updates; [n] bounds the
    number of rounds and [length names] rounds exhaust the list. *)
Fixpoint rename_from (n i : nat) (names : list string) : result (list string) :=
  match n with
  | O => Ok names
  | S n' =>
      match nth_error names i with
      | None => Ok names
      | Some name =>
          names' <-
            (if mapping_has STATS_MAPPING name
             then v <- mapping_getitem STATS_MAPPING name ;;
                  Ok (list_setitem names i v)
             else Ok names) ;;
          rename_from n' (S i) names'
      end
  end.

Definition rename_names (names : list string) : result (list string) :=
  rename_from (length names) 0 names.

(** [[float(v) for v in values]] *)
Fixpoint floats_of (values : list string) : result (list spec_float) :=
  match values with
  | [] => Ok []
  | v :: values' =>
      f <- py_float v ;;
      fs <- floats_of values' ;;
      Ok (f :: fs)
  end.

Definition _parse_stats (stats : string) : M unit :=
  let lines := map str_split (str_splitlines stats) in
  do names <- lift (list_getitem lines 0);
  do values <- lift (list_getitem lines 1);
  do names <- lift (rename_names names);
  do values <- lift (floats_of values);
  for_each (combine names values)
           (fun kv => setitem (fst kv) (VFloat (snd kv))).

(** ** [_parse_status] *)

(** [key, value = xs]: exactly two items, or [ValueError]. *)
Definition unpack2 {X : Type} (xs : list X) : result (X * X) :=
  match xs with
  | [a; b] => Ok (a, b)
  | _ => Raise ValueError
  end.

Definition pyval_of_capture (c : option string) : pyval :=
  match c with
  | Some s => VStr s
  | None => VNone
  end.

(** The body of the loop for one header line [key: value]. *)
Definition status_line (key value : string) : M unit :=
  if String.eqb key "players" then
    match re_match players_re value with
    | Some m =>
        for_each (groupdict players_re m)
                 (fun kv => setitem (fst kv) (pyval_of_capture (snd kv)))
    | None => ret tt
    end
  else if String.eqb key "hostname" then setitem "hostname" (VStr value)
  else ret tt.

(** The loop over the lines; [ret tt] where the source has [break]. *)
Fixpoint status_loop (lines : list string) : M unit :=
  match lines with
  | [] => ret tt
  | line :: rest =>
      if String.eqb (str_strip line) "" then ret tt
      else
        match unpack2 (map str_strip (str_split1 ":" line)) with
        | Raise ValueError => ret tt
        | Raise e => raise e
        | Ok (key, value) => status_line key value ;; status_loop rest
        end
  end.

Definition _parse_status (status : string) : M unit :=
  status_loop (str_splitlines status).

(** ** [_parse_query] *)

Definition _parse_query (stats status : string) : M unit :=
  _parse_status status ;; _parse_stats stats.

(** ** Targets, requests and responses *)

(** A component of a target: the request gives strings; the configuration of
    single-server mode gives what the command line had (a string, an integer
    port, or nothing). *)
Inductive param : Type :=
| PNone
| PStr (s : string)
| PInt (z : Z).

Definition pyval_of_param (p : param) : pyval :=
  match p with
  | PNone => VNone
  | PStr s => VStr s
  | PInt z => VInt z
  end.

(** ["%s" % p] *)
Definition percent_s (p : param) : string :=
  match p with
  | PNone => "None"
  | PStr s => s
  | PInt z => NilZero.string_of_int (Z.to_int z)
  end.

Definition target : Type := param * param * param.

(** The exporter object: [self._ip], [self._port], [self._password],
    [self._single_server]. *)
Record SRCDSExporter : Type := {
  _ip : param;
  _port : param;
  _password : param;
  _single_server : bool
}.

(** The part of an HTTP request the handler reads: [request.path] and
    [request.query], the query parameters in the order they were sent. *)
Record request : Type := {
  path : string;
  query : list (string * string)
}.

(** [key in request.query] *)
Definition query_has (key : string) (q : list (string * string)) : bool :=
  existsb (fun kv => String.eqb (fst kv) key) q.

(** [request.query[key]]: the first value of the key, or [KeyError]. *)
Fixpoint query_getitem (key : string) (q : list (string * string))
  : result string :=
  match q with
  | [] => Raise KeyError
  | (k, v) :: q' => if String.eqb k key then Ok v else query_getitem key q'
  end.

(** [s.split(sep)] for a one-character separator: every field. *)
Fixpoint str_split_on (sep : ascii) (s : string) : list string :=
  match s with
  | "" => [""]
  | String c s' =>
      if Ascii.eqb c sep then "" :: str_split_on sep s'
      else
        match str_split_on sep s' with
        | w :: ws => String c w :: ws
        | [] => [String c ""]
        end
  end.

(** The text of a response is given literally or is the rendering of the
    template [response.j2] on a dictionary; the template is a file outside
    the source, so a rendered body is represented by its argument. *)
Inductive body : Type :=
| Text (s : string)
| Rendered (server_dict : dict).

(** [web.Response(text=..., status=...)]; the status defaults to 200. *)
Record response : Type := {
  text : body;
  status : Z
}.

(** ** [_get_target] *)

Definition _get_target (self : SRCDSExporter) (req : request) : result target :=
  if _single_server self then
    if query_has "target" (query req) then
      Raise (TargetSpecificationError
               "'target' and 'password' not allowed in single server mode.")
    else if query_has "password" (query req) then
      Raise (TargetSpecificationError
               "'target' and 'password' not allowed in single server mode.")
    else Ok (_ip self, _port self, _password self)
  else
    match query_getitem "target" (query req) with
    | Raise _ =>
        (* [except Exception:] formats the message with the local [target],
           which the failed lookup has left unbound *)
        Raise UnboundLocalError
    | Ok tgt =>
        let targets := str_split_on ":" tgt in
        match (ip <- list_getitem targets 0 ;;
               port <- list_getitem targets 1 ;;
               Ok (ip, port)) with
        | Raise _ =>
            Raise (TargetSpecificationError
                     ("target " ++ tgt ++ " is not a valid targetspecification"))
        | Ok (ip, port) =>
            match query_getitem "password" (query req) with
            | Raise _ => Raise (TargetSpecificationError "no password given")
            | Ok password => Ok (PStr ip, PStr port, PStr password)
            end
        end
    end.

(** ** [_rcon_query] *)

(** What the game server does during one scrape: the outcome of
    [RCON.create] (an RCON object, [None], or an exception, a timeout of
    [asyncio.wait_for] included) and of the two commands. *)
Record rcon_server : Type := {
  on_create : result bool;
  on_status : result string;
  on_stats : result string
}.

(** Network events of a scrape, in order ([print(rcon)] writes to the
    standard output only and is left out). *)
Inductive io_event : Type :=
| EvCreate (ip port password : param)
| EvCommand (cmd : string)
| EvClose.

Definition _rcon_query (srv : rcon_server) (ip port password : param)
  : result (string * string) * list io_event :=
  match on_create srv with
  | Raise e => (Raise e, [EvCreate ip port password])
  | Ok false =>
      (* [raise Error]: the name [Error] is not defined *)
      (Raise NameError, [EvCreate ip port password])
  | Ok true =>
      match on_status srv with
      | Raise e =>
          (Raise e, [EvCreate ip port password; EvCommand "status"; EvClose])
      | Ok st =>
          match on_stats srv with
          | Raise e =>
              (Raise e, [EvCreate ip port password; EvCommand "status";
                         EvCommand "stats"; EvClose])
          | Ok sts =>
              (Ok (st, sts), [EvCreate ip port password; EvCommand "status";
                              EvCommand "stats"; EvClose])
          end
      end
  end.

(** ** [_server_down_response] and [request_handler] *)

Definition down_text : string :=
  "# HELP srcds_up is the gameserver reachable" ++ String LF "" ++
  "# TYPE srcds_up gauge" ++ String LF "" ++
  "srcds_up 0".

Definition _server_down_response : response :=
  {| text := Text down_text; status := 200 |}.

(** ["{%s}:{%s}" % (ip, port)] *)
Definition target_label (ip port : param) : string :=
  "{" ++ percent_s ip ++ "}:{" ++ percent_s port ++ "}".

(** The dictionary the handler starts from:
    [{"ip": ip, "port": port, "target": "{%s}:{%s}" % (ip, port)}]. *)
Definition target_metadata (ip port : param) : dict :=
  [ ("ip", pyval_of_param ip);
    ("port", pyval_of_param port);
    ("target", VStr (target_label ip port)) ].

(** [isinstance(e, TimeoutError)] and [isinstance(e, ConnectionRefusedError)] *)
Definition is_TimeoutError (e : exn) : bool :=
  match e with TimeoutError => true | _ => false end.

Definition is_ConnectionRefusedError (e : exn) : bool :=
  match e with ConnectionRefusedError => true | _ => false end.

(** The handler gives a response or lets an exception escape, and produces
    the network events of the scrape. *)
Definition request_handler (self : SRCDSExporter) (srv : rcon_server)
           (req : request) : result response * list io_event :=
  if negb (String.eqb (path req) "/metrics") then
    (Ok {| text := Text "invalid path"; status := 404 |}, [])
  else
    match _get_target self req with
    | Raise (TargetSpecificationError msg) =>
        (Ok {| text := Text ("target specification is invalid: " ++ msg);
               status := 404 |}, [])
    | Raise e => (Raise e, [])
    | Ok (ip, port, password) =>
        match _rcon_query srv ip port password with
        | (Raise e, events) =>
            if is_TimeoutError e then (Ok _server_down_response, events)
            else if is_ConnectionRefusedError e then
              (Ok {| text := Text "Connection refused by target";
                     status := 503 |}, events)
            else (Ok _server_down_response, events)
        | (Ok (st, sts), events) =>
            let server_dict := target_metadata ip port in
            match _parse_query sts st server_dict with
            | (Ok _, server_dict') =>
                (Ok {| text := Rendered server_dict'; status := 200 |}, events)
            | (Raise e, _) => (Raise e, events)
            end
        end
    end.

(** ** [start_webserver] and the command line *)

(** The namespace [argparse] gives: [--port], [--address], [--password],
    [--server_address], [--server_port]. *)
Record Namespace : Type := {
  args_port : param;
  args_address : param;
  args_password : param;
  args_server_address : param;
  args_server_port : param
}.

(** The defaults of the argument parser. *)
Definition default_args : Namespace :=
  {| args_port := PInt 9591;
     args_address := PStr "127.0.0.1";
     args_password := PNone;
     args_server_address := PStr "localhost";
     args_server_port := PInt 27015 |}.

(** The truth value of an object in a condition: [None], the empty string
    and zero are false. *)
Definition truthy (p : param) : bool :=
  match p with
  | PNone => false
  | PStr s => negb (String.eqb s "")
  | PInt z => negb (z =? 0)%Z
  end.

(** [start_webserver]: the exporter whose handler is served, and the
    address and port the server is bound to. *)
Definition start_webserver (args : Namespace) : SRCDSExporter * param * param :=
  let exporter :=
    if truthy (args_server_address args) && truthy (args_server_port args)
       && truthy (args_password args)
    then {| _ip := args_server_address args;
            _port := args_server_port args;
            _password := args_password args;
            _single_server := true |}
    else {| _ip := PNone; _port := PNone; _password := PNone;
            _single_server := false |} in
  (exporter, args_address args, args_port args).

(** * Vocabulary of the properties *)

Unset Implicit Arguments.

(** ** Exporters, requests and servers of the examples *)

(** The message of the refusal in single-server mode. *)
Definition single_mode_message : string :=
  "'target' and 'password' not allowed in single server mode.".

(** An exporter started with a server address, port and password, and one
    started without. *)
Definition single_exporter : SRCDSExporter :=
  {| _ip := PStr "localhost"; _port := PInt 27015;
     _password := PStr "secret"; _single_server := true |}.

Definition multi_exporter : SRCDSExporter :=
  {| _ip := PNone; _port := PNone; _password := PNone;
     _single_server := false |}.

(** The samples of an exposition text: its lines that are neither empty nor
    comments. *)
Definition is_sample (line : string) : bool :=
  match line with
  | "" => false
  | String c _ => negb (Ascii.eqb c "#")
  end.

Definition sample_lines (text : string) : list string :=
  filter is_sample (str_splitlines text).

(** [web.Response(text="Connection refused by target", status=503)] *)
Definition refused_response : response :=
  {| text := Text "Connection refused by target"; status := 503 |}.

(** A game server every contact with which raises [e]. *)
Definition unreachable_server (e : exn) : rcon_server :=
  {| on_create := Raise e; on_status := Raise e; on_stats := Raise e |}.

(** [GET /metrics?target=1.2.3.4:27015&password=secret] *)
Definition scrape_request : request :=
  {| path := "/metrics";
     query := [("target", "1.2.3.4:27015"); ("password", "secret")] |}.

(** ** Stats *)

(** The assignments [server_dict[key] = value] of a loop over pairs. *)
Definition assign_all {X : Type} (f : X -> pyval) (kvs : list (string * X))
           (d : dict) : dict :=
  fold_left (fun acc kv => dict_set (fst kv) (f (snd kv)) acc) kvs d.

(** The renaming of one name as the table gives it: the value of the first
    entry with that key, the name itself when there is none. *)
Definition stats_rename (name : string) : string :=
  match mapping_getitem STATS_MAPPING name with
  | Ok v => v
  | Raise _ => name
  end.

Definition newline : string := String LF "".

(** The stats text of the example of the specification. *)
Definition stats_example : string :=
  "In Out +-ms" ++ newline ++ "1.5 2.5 30.0" ++ newline.

(** ** Status *)

(** The key and the value of a header line. *)
Definition header_of (line : string) : string * string :=
  match str_partition ":" line with
  | Some (a, b) => (str_strip a, str_strip b)
  | None => (str_strip line, "")
  end.

(** The header lines are handled one after the other, in order. *)
Definition handle_headers (lines : list string) : M unit :=
  for_each (map header_of lines) (fun kv => status_line (fst kv) (snd kv)).

(** A header line: not blank, and with a colon to split at. *)
Definition is_header (line : string) : Prop :=
  str_strip line <> "" /\ str_contains ":" line = true.

(** ** Player counts *)

(** Every character of [s] is in the class [p]; [s] starts with one. *)
Fixpoint all_chars (p : ascii -> bool) (s : string) : bool :=
  match s with
  | "" => true
  | String c s' => p c && all_chars p s'
  end.

Definition starts_with (p : ascii -> bool) (s : string) : bool :=
  match s with
  | "" => false
  | String c _ => p c
  end.

(** A numeral: one decimal digit or more. *)
Definition is_numeral (s : string) : bool :=
  starts_with isdecimal s && all_chars isdecimal s.

(** The player counts of the documented layouts: [P], then the breakdown
    [humans, B bots] or nothing, then [(M], then [/D] or nothing, then
    [ max)] and any text. *)
Definition players_value (P : string) (bots : option string) (M : string)
           (slash : option ascii) (suffix : string) : string :=
  let close :=
    match slash with
    | Some D => String "/" (String D (" max)" ++ suffix))
    | None => " max)" ++ suffix
    end%string in
  match bots with
  | Some B => P ++ " humans, " ++ B ++ " bots (" ++ M ++ close
  | None => P ++ " (" ++ M ++ close
  end%string.

(** What it means for [r] to match between the positions [s] and [s'],
    turning the captures [caps] into [caps']. *)
Fixpoint matches (r : regex) (s : string) (caps : captures)
         (s' : string) (caps' : captures) : Prop :=
  match r with
  | Eps => s' = s /\ caps' = caps
  | Lit c => s = String c s' /\ caps' = caps
  | Class p => exists c, p c = true /\ s = String c s' /\ caps' = caps
  | Plus p =>
      exists run, starts_with p run = true /\ all_chars p run = true
                  /\ s = (run ++ s')%string /\ caps' = caps
  | Seq r1 r2 =>
      exists s1 caps1, matches r1 s caps s1 caps1 /\ matches r2 s1 caps1 s' caps'
  | Opt r1 => matches r1 s caps s' caps' \/ (s' = s /\ caps' = caps)
  | Named name r1 =>
      exists caps1, matches r1 s caps s' caps1
                    /\ caps' = (name, consumed s s') :: caps1
  | Group r1 => matches r1 s caps s' caps'
  end.

(** [t] occurs in [s]. *)
Definition is_substring (t s : string) : Prop :=
  exists pre post, s = (pre ++ t ++ post)%string.

(** [str(n)] for a natural number. *)
Definition decimal (n : N) : string := NilZero.string_of_uint (N.to_uint n).

(** [int(s)] for a numeral. *)
Definition numeral_value (s : string) : option N :=
  option_map N.of_uint (NilZero.uint_of_string s).

(** ** The example of the specification *)

Definition status_example : string :=
  "hostname: My Server" ++ newline ++
  "players: 5 humans, 2 bots (10 max)" ++ newline.

(** The binary64 numbers 1.5, 2.5 and 30. *)
Definition float_1_5 : spec_float := S754_finite false 6755399441055744 (-52).
Definition float_2_5 : spec_float := S754_finite false 5629499534213120 (-51).
Definition float_30 : spec_float := S754_finite false 8444249301319680 (-48).

(** [f] is the positive number [num / den] exactly. *)
Definition float_is_ratio (f : spec_float) (num den : Z) : Prop :=
  match f with
  | S754_finite false m e =>
      (e <= 0 /\ 0 < den /\ Z.pos m * den = num * 2 ^ (- e))%Z
  | _ => False
  end.

(** A game server that answers with the example, and one whose stats have
    a value that is no numeral. *)
Definition example_server : rcon_server :=
  {| on_create := Ok true;
     on_status := Ok status_example;
     on_stats := Ok stats_example |}.

Definition bad_stats_server : rcon_server :=
  {| on_create := Ok true;
     on_status := Ok status_example;
     on_stats := Ok ("In Out" ++ newline ++ "1.5 n/a" ++ newline)%string |}.

(** ** Events and assignments *)

Definition is_close (ev : io_event) : bool :=
  match ev with EvClose => true | _ => false end.

Definition is_command (ev : io_event) : bool :=
  match ev with EvCommand _ => true | _ => false end.

(** The value of the last pair of [kvs] whose key is [k]. *)
Fixpoint last_assigned {X : Type} (k : string) (kvs : list (string * X))
  : option X :=
  match kvs with
  | [] => None
  | (k', x) :: kvs' =>
      match last_assigned k kvs' with
      | Some y => Some y
      | None => if String.eqb k' k then Some x else None
      end
  end.

(** The keys [_parse_status] assigns to. *)
Definition status_keys : list string :=
  ["hostname"; "players"; "bots"; "max_players"].

(** The namespace of a command line that gives [--password] only. *)
Definition args_with_password (password : string) : Namespace :=
  {| args_port := args_port default_args;
     args_address := args_address default_args;
     args_password := PStr password;
     args_server_address := args_server_address default_args;
     args_server_port := args_server_port default_args |}.

(** [d'] has the keys of [d], in their order, then possibly new ones, and
    distinct keys stay distinct. *)
Definition keeps_keys (d d' : dict) : Prop :=
  (exists new, dict_keys d' = dict_keys d ++ new)
  /\ (NoDup (dict_keys d) -> NoDup (dict_keys d')).

(** * Properties *)

(** ** The text primitives on examples *)

Example str_split_example :
  str_split "  In Out   +-ms  " = ["In"; "Out"; "+-ms"]
  /\ str_split "" = [] /\ str_split "   " = [].
Proof. repeat split. Qed.

Example str_splitlines_example :
  str_splitlines ("a" ++ String CR (String LF "b") ++ newline ++ newline
                  ++ "c" ++ newline)%string
  = ["a"; "b"; ""; "c"]
  /\ str_splitlines "" = [] /\ str_splitlines newline = [""].
Proof. repeat split. Qed.

Example str_strip_example :
  str_strip "  My Server  " = "My Server" /\ str_strip "   " = "".
Proof. repeat split. Qed.

Example str_split1_example :
  str_split1 ":" "hostname: a:b" = ["hostname"; " a:b"]
  /\ str_split1 ":" "# userid name" = ["# userid name"]
  /\ str_split_on ":" "1.2.3.4:27015" = ["1.2.3.4"; "27015"]
  /\ str_split_on ":" "" = [""].
Proof. repeat split. Qed.

Example py_float_example :
  py_float "0.1" = Ok (S754_finite false 7205759403792794 (-56))
  /\ py_float "-2e3" = Ok (S754_finite true 8796093022208000 (-42))
  /\ py_float "1_000" = Ok (S754_finite false 8796093022208000 (-43))
  /\ py_float "9007199254740993" = Ok (S754_finite false 4503599627370496 1)
  /\ py_float "1e400" = Ok (S754_infinity false)
  /\ py_float "-0" = Ok (S754_zero true)
  /\ py_float "-Infinity" = Ok (S754_infinity true)
  /\ py_float "NaN" = Ok S754_nan
  /\ py_float "" = Raise ValueError
  /\ py_float "n/a" = Raise ValueError
  /\ py_float "1e" = Raise ValueError
  /\ py_float "1__0" = Raise ValueError
  /\ py_float "0x10" = Raise ValueError.
Proof. vm_compute. repeat split. Qed.

Example players_re_example :
  option_map (groupdict players_re)
             (re_match players_re "0 humans, 0 bots (16/0 max) (hibernating)")
  = Some [("players", Some "0"); ("bots", Some "0"); ("max_players", Some "16")]
  /\ option_map (groupdict players_re) (re_match players_re "0 (16 max)")
     = Some [("players", Some "0"); ("bots", None); ("max_players", Some "16")]
  /\ option_map (groupdict players_re)
                (re_match players_re "12 humans, 0 bots (16 max)")
     = Some [("players", Some "12"); ("bots", Some "0");
             ("max_players", Some "16")]
  /\ re_match players_re "12 humans, 0 bots (16/10 max)" = None
  /\ re_match players_re "twelve (16 max)" = None.
Proof. vm_compute. repeat split. Qed.

Example request_handler_example :
  request_handler multi_exporter example_server scrape_request
  = (Ok {| text :=
             Rendered
               [ ("ip", VStr "1.2.3.4");
                 ("port", VStr "27015");
                 ("target", VStr "{1.2.3.4}:{27015}");
                 ("hostname", VStr "My Server");
                 ("players", VStr "5");
                 ("bots", VStr "2");
                 ("max_players", VStr "10");
                 ("NetIn", VFloat float_1_5);
                 ("NetOut", VFloat float_2_5);
                 ("varms", VFloat float_30) ];
           status := 200 |},
     [EvCreate (PStr "1.2.3.4") (PStr "27015") (PStr "secret");
      EvCommand "status"; EvCommand "stats"; EvClose])
  /\ request_handler single_exporter example_server
                     {| path := "/"; query := [] |}
     = (Ok {| text := Text "invalid path"; status := 404 |}, [])
  /\ request_handler multi_exporter example_server
                     {| path := "/metrics";
                        query := [("target", "localhost");
                                  ("password", "secret")] |}
     = (Ok {| text :=
                Text ("target specification is invalid: "
                      ++ "target localhost is not a valid targetspecification");
              status := 404 |}, []).
Proof. vm_compute. repeat split. Qed.

(** ** Target resolution *)

Lemma query_getitem_has (key : string) (q : list (string * string)) :
  query_has key q = true <-> exists v, query_getitem key q = Ok v.
Proof.
  induction q as [|[k v] q IH]; simpl.
  - split; [discriminate | intros [v H]; discriminate].
  - destruct (String.eqb k key); simpl.
    + split; [exists v; reflexivity | reflexivity].
    + exact IH.
Qed.

Lemma query_getitem_missing (key : string) (q : list (string * string)) :
  query_has key q = false <-> query_getitem key q = Raise KeyError.
Proof.
  induction q as [|[k v] q IH]; simpl.
  - split; reflexivity.
  - destruct (String.eqb k key); simpl.
    + split; discriminate.
    + exact IH.
Qed.

(** In multi-target mode a request without [target] leaves [_get_target]
    with an [UnboundLocalError], whatever else the request has. *)
Lemma get_target_multi_no_target (self : SRCDSExporter) (req : request) :
  _single_server self = false ->
  query_has "target" (query req) = false ->
  _get_target self req = Raise UnboundLocalError.
Proof.
  intros Hmode Hq. unfold _get_target. rewrite Hmode.
  apply query_getitem_missing in Hq. rewrite Hq. reflexivity.
Qed.

(** In multi-target mode a target with a colon and a password resolve to the
    first two colon-separated fields and the password. *)
Lemma get_target_multi_ok (self : SRCDSExporter) (req : request)
      (tgt password ip port : string) (more : list string) :
  _single_server self = false ->
  query_getitem "target" (query req) = Ok tgt ->
  str_split_on ":" tgt = ip :: port :: more ->
  query_getitem "password" (query req) = Ok password ->
  _get_target self req = Ok (PStr ip, PStr port, PStr password).
Proof.
  intros Hmode Ht Hs Hp. unfold _get_target.
  rewrite Hmode, Ht, Hs, Hp. reflexivity.
Qed.

(** C8: in single-server mode a request with a [target] or a [password]
    parameter is refused with [TargetSpecificationError], and a request with
    neither resolves to the configured address, port and password. *)
Theorem get_target_single_server (self : SRCDSExporter) (req : request)
        (Hmode : _single_server self = true) :
  (query_has "target" (query req) = true \/
   query_has "password" (query req) = true ->
   _get_target self req = Raise (TargetSpecificationError single_mode_message))
  /\
  (query_has "target" (query req) = false ->
   query_has "password" (query req) = false ->
   _get_target self req = Ok (_ip self, _port self, _password self)).
Proof.
  unfold _get_target. rewrite Hmode. split.
  - intros [H | H].
    + rewrite H. reflexivity.
    + rewrite H. destruct (query_has "target" (query req)); reflexivity.
  - intros Ht Hp. rewrite Ht, Hp. reflexivity.
Qed.

Lemma get_target_single_server_witness :
  _get_target single_exporter
              {| path := "/metrics"; query := [("password", "x")] |}
  = Raise (TargetSpecificationError single_mode_message)
  /\
  _get_target single_exporter {| path := "/metrics"; query := [] |}
  = Ok (PStr "localhost", PInt 27015, PStr "secret").
Proof.
  split.
  - apply (proj1 (get_target_single_server single_exporter
                    {| path := "/metrics"; query := [("password", "x")] |}
                    eq_refl)).
    right. reflexivity.
  - apply (proj2 (get_target_single_server single_exporter
                    {| path := "/metrics"; query := [] |} eq_refl));
      reflexivity.
Defined.

(** C7, the code at a request without [target] in multi-target mode: the
    lookup fails, the handler of that failure reads the unbound local
    [target], and an [UnboundLocalError] leaves [_get_target] and then
    [request_handler], before any network event. *)
Theorem get_target_missing_target_unbound :
  let req := {| path := "/metrics"; query := [("password", "secret")] |} in
  _get_target multi_exporter req = Raise UnboundLocalError
  /\ (forall srv, request_handler multi_exporter srv req
                  = (Raise UnboundLocalError, [])).
Proof.
  split; reflexivity.
Qed.

(** ** Failed queries *)

(** C2: when the RCON query of a scrape raises, the response is the fixed
    down text, whose only sample is [srcds_up 0], for a timeout and for any
    exception that is not a refused connection; for a refused connection it
    is the fixed refusal with status 503, which is another response and has
    no dictionary of metrics. *)
Theorem query_failure_response (self : SRCDSExporter) (srv : rcon_server)
        (req : request) (ip port password : param) (e : exn)
        (events : list io_event)
        (Hpath : path req = "/metrics")
        (Htarget : _get_target self req = Ok (ip, port, password))
        (Hquery : _rcon_query srv ip port password = (Raise e, events)) :
  (e <> ConnectionRefusedError ->
   request_handler self srv req = (Ok _server_down_response, events))
  /\ (e = ConnectionRefusedError ->
      request_handler self srv req = (Ok refused_response, events))
  /\ text _server_down_response = Text down_text
  /\ sample_lines down_text = ["srcds_up 0"]
  /\ refused_response <> _server_down_response.
Proof.
  unfold request_handler. rewrite Hpath, Htarget, Hquery. simpl.
  repeat split.
  - intros Hne. destruct e; try reflexivity. now elim Hne.
  - intros ->. reflexivity.
  - discriminate.
Qed.

Lemma query_failure_response_witness :
  request_handler multi_exporter (unreachable_server TimeoutError)
                  scrape_request
  = (Ok _server_down_response,
     [EvCreate (PStr "1.2.3.4") (PStr "27015") (PStr "secret")])
  /\
  request_handler multi_exporter (unreachable_server ConnectionRefusedError)
                  scrape_request
  = (Ok refused_response,
     [EvCreate (PStr "1.2.3.4") (PStr "27015") (PStr "secret")]).
Proof.
  split.
  - apply (proj1 (query_failure_response multi_exporter
                    (unreachable_server TimeoutError) scrape_request
                    (PStr "1.2.3.4") (PStr "27015") (PStr "secret")
                    TimeoutError _ eq_refl eq_refl eq_refl)).
    discriminate.
  - apply (proj1 (proj2 (query_failure_response multi_exporter
                    (unreachable_server ConnectionRefusedError) scrape_request
                    (PStr "1.2.3.4") (PStr "27015") (PStr "secret")
                    ConnectionRefusedError _ eq_refl eq_refl eq_refl))).
    reflexivity.
Defined.

(** ** The dictionary *)

Lemma dict_has_In (k : string) (d : dict) :
  dict_has k d = true <-> In k (dict_keys d).
Proof.
  unfold dict_has. rewrite existsb_exists. split.
  - intros [x [Hin Heq]]. apply String.eqb_eq in Heq. now subst.
  - intros Hin. exists k. split; [assumption | apply String.eqb_refl].
Qed.

Lemma dict_keys_set_new (k : string) (v : pyval) (d : dict) :
  ~ In k (dict_keys d) -> dict_keys (dict_set k v d) = dict_keys d ++ [k].
Proof.
  induction d as [|[k' v'] d IH]; simpl; intros Hnin.
  - reflexivity.
  - destruct (String.eqb k' k) eqn:E.
    + apply String.eqb_eq in E. subst. elim Hnin. now left.
    + simpl. f_equal. apply IH. intros H. apply Hnin. now right.
Qed.

Lemma dict_keys_set_old (k : string) (v : pyval) (d : dict) :
  In k (dict_keys d) -> dict_keys (dict_set k v d) = dict_keys d.
Proof.
  induction d as [|[k' v'] d IH]; simpl; intros Hin.
  - contradiction.
  - destruct (String.eqb k' k) eqn:E.
    + reflexivity.
    + simpl. f_equal. apply IH. destruct Hin as [H | H]; [|assumption].
      subst. rewrite String.eqb_refl in E. discriminate.
Qed.

Lemma dict_get_set_same (k : string) (v : pyval) (d : dict) :
  dict_get k (dict_set k v d) = Some v.
Proof.
  induction d as [|[k' v'] d IH]; simpl.
  - now rewrite String.eqb_refl.
  - destruct (String.eqb k' k) eqn:E; simpl; rewrite E; [reflexivity | exact IH].
Qed.

Lemma dict_get_set_other (k k0 : string) (v : pyval) (d : dict) :
  k <> k0 -> dict_get k0 (dict_set k v d) = dict_get k0 d.
Proof.
  intros Hne. induction d as [|[k' v'] d IH]; simpl.
  - destruct (String.eqb k k0) eqn:E; [|reflexivity].
    apply String.eqb_eq in E. contradiction.
  - destruct (String.eqb k' k) eqn:E; simpl.
    + apply String.eqb_eq in E. subst k'.
      destruct (String.eqb k k0) eqn:E0; [|reflexivity].
      apply String.eqb_eq in E0. contradiction.
    + destruct (String.eqb k' k0); [reflexivity | exact IH].
Qed.

(** The keys stay pairwise distinct. *)
Lemma dict_set_NoDup (k : string) (v : pyval) (d : dict) :
  NoDup (dict_keys d) -> NoDup (dict_keys (dict_set k v d)).
Proof.
  intros Hnd. destruct (in_dec string_dec k (dict_keys d)) as [Hin | Hnin].
  - now rewrite dict_keys_set_old.
  - rewrite dict_keys_set_new by assumption.
    apply NoDup_app; [assumption | constructor; [intros [] | constructor] |].
    intros x Hx [Hk | []]. subst. contradiction.
Qed.

Lemma for_each_setitem {X : Type} (f : X -> pyval) (kvs : list (string * X))
      (d : dict) :
  for_each kvs (fun kv => setitem (fst kv) (f (snd kv))) d
  = (Ok tt, assign_all f kvs d).
Proof.
  revert d. induction kvs as [|kv kvs IH]; intros d; simpl.
  - reflexivity.
  - unfold bindM, setitem. simpl. apply IH.
Qed.

Lemma assign_all_new_keys {X : Type} (f : X -> pyval)
      (kvs : list (string * X)) (d : dict) :
  NoDup (map fst kvs) ->
  (forall k, In k (map fst kvs) -> ~ In k (dict_keys d)) ->
  dict_keys (assign_all f kvs d) = dict_keys d ++ map fst kvs.
Proof.
  revert d. induction kvs as [|[k x] kvs IH]; intros d Hnd Hnew; simpl.
  - now rewrite app_nil_r.
  - inversion Hnd as [|? ? Hk Hnd']; subst.
    unfold assign_all in *. simpl. rewrite IH.
    + rewrite dict_keys_set_new by (apply Hnew; now left).
      now rewrite <- app_assoc.
    + assumption.
    + intros k0 Hin. rewrite dict_keys_set_new by (apply Hnew; now left).
      intros Hin'. apply in_app_or in Hin'. destruct Hin' as [H | [H | []]].
      * apply (Hnew k0); [now right | assumption].
      * subst. contradiction.
Qed.

(** ** [_parse_stats] *)

Lemma mapping_has_getitem (mapping : list (string * string)) (name : string) :
  (mapping_has mapping name = true ->
   exists v, mapping_getitem mapping name = Ok v)
  /\ (mapping_has mapping name = false ->
      mapping_getitem mapping name = Raise KeyError).
Proof.
  induction mapping as [|[k v] mapping IH]; simpl.
  - split; [discriminate | reflexivity].
  - destruct (String.eqb k name); simpl.
    + split; [exists v; reflexivity | discriminate].
    + exact IH.
Qed.

Lemma mapping_has_In (mapping : list (string * string)) (name : string) :
  mapping_has mapping name = true <-> In name (map fst mapping).
Proof.
  unfold mapping_has. rewrite existsb_exists, in_map_iff. split.
  - intros [kv [Hin Heq]]. apply String.eqb_eq in Heq. now exists kv.
  - intros [kv [Heq Hin]]. exists kv. split; [assumption|].
    rewrite Heq. apply String.eqb_refl.
Qed.

Lemma list_setitem_middle {X : Type} (pre post : list X) (x y : X) :
  list_setitem (pre ++ x :: post) (length pre) y = pre ++ y :: post.
Proof.
  induction pre as [|z pre IH]; simpl; [reflexivity | now rewrite IH].
Qed.

Lemma nth_error_middle {X : Type} (pre post : list X) (x : X) :
  nth_error (pre ++ x :: post) (length pre) = Some x.
Proof.
  induction pre as [|z pre IH]; simpl; [reflexivity | exact IH].
Qed.

Lemma nth_error_end {X : Type} (l : list X) : nth_error l (length l) = None.
Proof.
  induction l as [|z l IH]; simpl; [reflexivity | exact IH].
Qed.

(** The loop renames every position once and never raises [KeyError]. *)
Lemma rename_from_spec (post pre : list string) (n : nat) :
  length post <= n ->
  rename_from n (length pre) (pre ++ post) = Ok (pre ++ map stats_rename post).
Proof.
  revert pre n. induction post as [|x post IH]; intros pre n Hn.
  - simpl map. rewrite !app_nil_r. destruct n; simpl; [reflexivity|].
    now rewrite nth_error_end.
  - destruct n as [|n]; [simpl in Hn; lia|]. simpl in Hn.
    cbn [rename_from]. rewrite nth_error_middle.
    assert (Hstep : forall y, stats_rename x = y ->
              rename_from n (S (length pre)) (pre ++ y :: post)
              = Ok (pre ++ map stats_rename (x :: post))).
    { intros y Hy. replace (pre ++ y :: post) with ((pre ++ [y]) ++ post)
        by (now rewrite <- app_assoc).
      replace (S (length pre)) with (length (pre ++ [y]))
        by (rewrite length_app; simpl; lia).
      rewrite IH by lia. simpl. rewrite Hy. now rewrite <- app_assoc. }
    destruct (mapping_has STATS_MAPPING x) eqn:E.
    + destruct (proj1 (mapping_has_getitem STATS_MAPPING x) E) as [v Hv].
      rewrite Hv. cbn [bind]. rewrite list_setitem_middle.
      apply Hstep. unfold stats_rename. now rewrite Hv.
    + cbn [bind]. apply Hstep. unfold stats_rename.
      now rewrite (proj2 (mapping_has_getitem STATS_MAPPING x) E).
Qed.

Lemma rename_names_spec (names : list string) :
  rename_names names = Ok (map stats_rename names).
Proof.
  unfold rename_names. apply (rename_from_spec names [] (length names)).
  lia.
Qed.

(** A name outside the table keeps its spelling. *)
Lemma stats_rename_absent (name : string) :
  ~ In name (map fst STATS_MAPPING) -> stats_rename name = name.
Proof.
  intros Hnin. unfold stats_rename.
  destruct (mapping_has STATS_MAPPING name) eqn:E.
  - apply mapping_has_In in E. contradiction.
  - now rewrite (proj2 (mapping_has_getitem STATS_MAPPING name) E).
Qed.

(** A name of the table becomes the name the table pairs it with. *)
Lemma stats_rename_present (name new : string) :
  In (name, new) STATS_MAPPING -> stats_rename name = new.
Proof.
  intros Hin. simpl in Hin.
  repeat (destruct Hin as [Heq | Hin];
          [inversion Heq; subst; reflexivity|]).
  contradiction.
Qed.

(** No new name is a key of the table: one renaming is all there is. *)
Lemma stats_rename_once (name : string) :
  stats_rename (stats_rename name) = stats_rename name.
Proof.
  destruct (in_dec string_dec name (map fst STATS_MAPPING)) as [Hin | Hnin].
  - simpl in Hin.
    repeat (destruct Hin as [Heq | Hin]; [subst; reflexivity|]).
    contradiction.
  - now rewrite !(stats_rename_absent name Hnin).
Qed.

(** [float] raises nothing but [ValueError]. *)
Lemma parse_float_raises (s : string) (e : exn) :
  parse_float s = Raise e -> e = ValueError.
Proof.
  unfold parse_float.
  destruct (scan_sign s) as [neg s1].
  destruct (String.eqb (str_lower s1) "inf" || String.eqb (str_lower s1) "infinity");
    [discriminate|].
  destruct (String.eqb (str_lower s1) "nan"); [discriminate|].
  destruct (scan_digits s1 0 0) as [[ip ni] s2].
  match goal with
  | |- context [match ?x with (_, _) => _ end] =>
      match x with
      | match s2 with _ => _ end => destruct x as [[m nf] s3]
      end
  end.
  destruct (ni + nf =? 0)%Z; [congruence|].
  destruct (scan_exponent s3); congruence.
Qed.

Lemma py_float_raises (s : string) (e : exn) :
  py_float s = Raise e -> e = ValueError.
Proof.
  unfold py_float.
  destruct (drop_underscores zero (float_rstrip (float_lstrip s))).
  - apply parse_float_raises.
  - congruence.
Qed.

Lemma floats_of_all (values : list string) :
  (forall v, In v values -> exists f, py_float v = Ok f) ->
  exists fs, floats_of values = Ok fs /\ length fs = length values.
Proof.
  induction values as [|v values IH]; intros Hall; simpl.
  - exists []. split; reflexivity.
  - destruct (Hall v (or_introl eq_refl)) as [f Hf]. rewrite Hf. simpl.
    destruct IH as [fs [Hfs Hlen]].
    + intros w Hw. apply Hall. now right.
    + rewrite Hfs. simpl. exists (f :: fs). split; [reflexivity|].
      simpl. now rewrite Hlen.
Qed.

Lemma floats_of_bad (values : list string) (v : string) :
  In v values -> (forall f, py_float v <> Ok f) ->
  floats_of values = Raise ValueError.
Proof.
  induction values as [|w values IH]; intros Hin Hbad; simpl.
  - contradiction.
  - destruct (py_float w) as [f | e] eqn:E; simpl.
    + destruct Hin as [-> | Hin]; [elim (Hbad f E)|].
      now rewrite (IH Hin Hbad).
    + now rewrite (py_float_raises w e E).
Qed.

(** [_parse_stats] on a text of at least two lines, in terms of its two
    token lists. *)
Lemma parse_stats_unfold (stats l0 l1 : string) (rest : list string) (d : dict) :
  str_splitlines stats = l0 :: l1 :: rest ->
  _parse_stats stats d =
  match floats_of (str_split l1) with
  | Ok fs =>
      (Ok tt, assign_all VFloat (combine (map stats_rename (str_split l0)) fs) d)
  | Raise e => (Raise e, d)
  end.
Proof.
  intros Hlines. unfold _parse_stats. rewrite Hlines. simpl map.
  unfold bindM, lift, list_getitem. simpl nth_error. cbv beta iota.
  rewrite rename_names_spec.
  destruct (floats_of (str_split l1)) as [fs | e]; [|reflexivity].
  apply for_each_setitem.
Qed.

(** C3, as the code has it: on a stats text whose first two lines have as
    many names as values, all of them numerals, the renaming loop replaces
    each name of [STATS_MAPPING] by its new name, once, and leaves every
    other name as it is; there is one assignment per column; and the mapping
    grows by the number of columns whenever the new names are pairwise
    distinct and none is a key already. *)
Theorem parse_stats_renames (stats l0 l1 : string) (rest : list string)
        (d : dict)
        (Hlines : str_splitlines stats = l0 :: l1 :: rest)
        (Hcols : length (str_split l0) = length (str_split l1))
        (Hvals : forall v, In v (str_split l1) -> exists f, py_float v = Ok f) :
  exists fs,
    floats_of (str_split l1) = Ok fs
    /\ rename_names (str_split l0) = Ok (map stats_rename (str_split l0))
    /\ (forall name new, In (name, new) STATS_MAPPING -> stats_rename name = new)
    /\ (forall name, ~ In name (map fst STATS_MAPPING) -> stats_rename name = name)
    /\ (forall name, stats_rename (stats_rename name) = stats_rename name)
    /\ _parse_stats stats d
       = (Ok tt,
          assign_all VFloat (combine (map stats_rename (str_split l0)) fs) d)
    /\ length (combine (map stats_rename (str_split l0)) fs)
       = length (str_split l0)
    /\ (NoDup (map stats_rename (str_split l0)) ->
        (forall name, In name (str_split l0) ->
                      ~ In (stats_rename name) (dict_keys d)) ->
        length (assign_all VFloat
                  (combine (map stats_rename (str_split l0)) fs) d)
        = length d + length (str_split l0)).
Proof.
  destruct (floats_of_all _ Hvals) as [fs [Hfs Hlen]].
  exists fs.
  assert (Hfst : map fst (combine (map stats_rename (str_split l0)) fs)
                 = map stats_rename (str_split l0)).
  { clear Hfs. rewrite <- Hcols in Hlen.
    rewrite <- (length_map stats_rename) in Hlen.
    revert fs Hlen.
    induction (map stats_rename (str_split l0)) as [|n ns IH];
      intros [|f fs] Hlen; simpl in *; try discriminate; [reflexivity|].
    f_equal. apply IH. lia. }
  repeat split.
  - exact Hfs.
  - apply rename_names_spec.
  - apply stats_rename_present.
  - apply stats_rename_absent.
  - apply stats_rename_once.
  - rewrite (parse_stats_unfold stats l0 l1 rest d Hlines), Hfs. reflexivity.
  - rewrite length_combine, length_map, Hlen, Hcols. apply Nat.min_id.
  - intros Hnd Hnew.
    rewrite <- (length_map fst (assign_all _ _ _)).
    change (map fst ?x) with (dict_keys x).
    rewrite assign_all_new_keys.
    + rewrite length_app, Hfst, length_map. unfold dict_keys.
      now rewrite length_map.
    + now rewrite Hfst.
    + rewrite Hfst. intros k Hk. apply in_map_iff in Hk.
      destruct Hk as [name [<- Hname]]. now apply Hnew.
Qed.

Ltac each_token_parses :=
  simpl; intros v Hv;
  repeat (destruct Hv as [<- | Hv]; [eexists; vm_compute; reflexivity|]);
  contradiction.

Lemma parse_stats_renames_witness :
  exists fs,
    floats_of (str_split "1.5 2.5 30.0") = Ok fs
    /\ _parse_stats stats_example []
       = (Ok tt,
          assign_all VFloat
            (combine (map stats_rename (str_split "In Out +-ms")) fs) [])
    /\ length (assign_all VFloat
                 (combine (map stats_rename (str_split "In Out +-ms")) fs) [])
       = 3.
Proof.
  assert (Hvals : forall v, In v (str_split "1.5 2.5 30.0") ->
                            exists f, py_float v = Ok f)
    by each_token_parses.
  assert (Hnd : NoDup (map stats_rename (str_split "In Out +-ms"))).
  { simpl. repeat constructor; simpl; intuition discriminate. }
  destruct (parse_stats_renames stats_example "In Out +-ms" "1.5 2.5 30.0"
              [] [] eq_refl eq_refl Hvals)
    as [fs [H1 [_ [_ [_ [_ [H2 [_ H3]]]]]]]].
  exists fs. split; [exact H1 | split; [exact H2|]].
  apply (H3 Hnd). intros name _ [].
Defined.

(** C3, the count as the claim has it, fails: two columns whose names the
    table sends to the same new name make one metric. *)
Lemma parse_stats_count_counterexample :
  let stats := ("In In_(KB/s)" ++ newline ++ "1.5 2.5" ++ newline)%string in
  map str_split (str_splitlines stats) = [["In"; "In_(KB/s)"]; ["1.5"; "2.5"]]
  /\ (exists f, _parse_stats stats [] = (Ok tt, [("NetIn", VFloat f)]))
  /\ ~ (forall d', _parse_stats stats [] = (Ok tt, d') ->
                   length d' = length (@nil (string * pyval)) + 2).
Proof.
  split; [reflexivity | split].
  - eexists. vm_compute. reflexivity.
  - intros H. specialize (H _ eq_refl). vm_compute in H. discriminate.
Qed.

Lemma combine_min {X Y : Type} (l : list X) (l' : list Y) :
  combine l l'
  = combine (firstn (Nat.min (length l) (length l')) l)
            (firstn (Nat.min (length l) (length l')) l').
Proof.
  rewrite <- combine_firstn, <- length_combine. symmetry. apply firstn_all.
Qed.

(** C9: when the first two lines of a stats text have different numbers of
    tokens and every value token is a numeral, [_parse_stats] returns
    without an exception, and what it assigns are the first [min n m] new
    names paired with the first [min n m] values; the rest is dropped. *)
Theorem parse_stats_unequal_columns (stats l0 l1 : string)
        (rest : list string) (d : dict)
        (Hlines : str_splitlines stats = l0 :: l1 :: rest)
        (Hne : length (str_split l0) <> length (str_split l1))
        (Hvals : forall v, In v (str_split l1) -> exists f, py_float v = Ok f) :
  let k := Nat.min (length (str_split l0)) (length (str_split l1)) in
  exists fs,
    floats_of (str_split l1) = Ok fs
    /\ length fs = length (str_split l1)
    /\ _parse_stats stats d
       = (Ok tt,
          assign_all VFloat
            (combine (firstn k (map stats_rename (str_split l0)))
                     (firstn k fs)) d)
    /\ length (combine (firstn k (map stats_rename (str_split l0)))
                       (firstn k fs)) = k.
Proof.
  intros k. destruct (floats_of_all _ Hvals) as [fs [Hfs Hlen]].
  exists fs. split; [exact Hfs | split; [exact Hlen|]].
  assert (Hk : Nat.min (length (map stats_rename (str_split l0))) (length fs)
               = k).
  { unfold k. now rewrite length_map, Hlen. }
  split.
  - rewrite (parse_stats_unfold stats l0 l1 rest d Hlines), Hfs.
    rewrite (combine_min (map stats_rename (str_split l0)) fs), Hk.
    reflexivity.
  - rewrite <- combine_firstn, length_firstn, length_combine, Hk.
    apply Nat.min_id.
Qed.

Lemma parse_stats_unequal_columns_witness :
  exists fs,
    floats_of (str_split "1.5 2.5") = Ok fs
    /\ _parse_stats ("In Out +-ms" ++ newline ++ "1.5 2.5" ++ newline)%string []
       = (Ok tt,
          assign_all VFloat
            (combine (firstn 2 (map stats_rename (str_split "In Out +-ms")))
                     (firstn 2 fs)) []).
Proof.
  assert (Hvals : forall v, In v (str_split "1.5 2.5") ->
                            exists f, py_float v = Ok f)
    by each_token_parses.
  assert (Hne : length (str_split "In Out +-ms")
                <> length (str_split "1.5 2.5"))
    by (simpl; discriminate).
  destruct (parse_stats_unequal_columns
              ("In Out +-ms" ++ newline ++ "1.5 2.5" ++ newline)%string
              "In Out +-ms" "1.5 2.5" [] [] eq_refl Hne Hvals)
    as [fs [H1 [_ [H2 _]]]].
  exists fs. split; [exact H1 | exact H2].
Defined.

(** ** [_parse_status] *)

Lemma str_partition_none (c : ascii) (s : string) :
  str_partition c s = None <-> str_contains c s = false.
Proof.
  induction s as [|c' s IH]; simpl.
  - split; reflexivity.
  - destruct (Ascii.eqb c' c); simpl.
    + split; discriminate.
    + destruct (str_partition c s) as [[a b]|].
      * split; [discriminate|]. intros H. apply IH in H. discriminate.
      * split; [intros _; now apply IH | reflexivity].
Qed.

(** A line with a colon splits where its first colon stands. *)
Lemma str_partition_some (c : ascii) (s a b : string) :
  str_partition c s = Some (a, b) ->
  s = (a ++ String c b)%string /\ str_contains c a = false.
Proof.
  revert a b. induction s as [|c' s IH]; simpl; intros a b H.
  - discriminate.
  - destruct (Ascii.eqb c' c) eqn:E.
    + apply Ascii.eqb_eq in E. inversion H; subst. split; reflexivity.
    + destruct (str_partition c s) as [[a' b']|]; [|discriminate].
      inversion H; subst. destruct (IH a' b eq_refl) as [-> Ha].
      split; [reflexivity|]. simpl. now rewrite E.
Qed.

Lemma status_line_returns (key value : string) (d : dict) :
  fst (status_line key value d) = Ok tt.
Proof.
  unfold status_line.
  destruct (String.eqb key "players").
  - destruct (re_match players_re value); [|reflexivity].
    now rewrite for_each_setitem.
  - destruct (String.eqb key "hostname"); reflexivity.
Qed.

Lemma status_loop_step (line : string) (rest : list string) (d : dict) :
  status_loop (line :: rest) d =
  if String.eqb (str_strip line) "" then (Ok tt, d)
  else if str_contains ":" line then
    status_loop rest (snd (status_line (fst (header_of line))
                                       (snd (header_of line)) d))
  else (Ok tt, d).
Proof.
  cbn [status_loop]. destruct (String.eqb (str_strip line) ""); [reflexivity|].
  unfold str_split1, header_of.
  destruct (str_partition ":" line) as [[a b]|] eqn:E.
  - destruct (str_contains ":" line) eqn:C.
    + cbn [map unpack2 fst snd]. unfold bindM.
      pose proof (status_line_returns (str_strip a) (str_strip b) d) as H.
      destruct (status_line (str_strip a) (str_strip b) d) as [r d'].
      simpl in H. subst r. reflexivity.
    + apply str_partition_none in C. congruence.
  - apply str_partition_none in E. rewrite E. reflexivity.
Qed.

Lemma status_loop_returns (lines : list string) (d : dict) :
  fst (status_loop lines d) = Ok tt.
Proof.
  revert d. induction lines as [|line rest IH]; intros d.
  - reflexivity.
  - rewrite status_loop_step.
    destruct (String.eqb (str_strip line) ""); [reflexivity|].
    destruct (str_contains ":" line); [apply IH | reflexivity].
Qed.

Lemma status_loop_headers (pre tail : list string) (d : dict) :
  (forall l, In l pre -> is_header l) ->
  status_loop (pre ++ tail) d
  = status_loop tail (snd (handle_headers pre d)).
Proof.
  revert d. induction pre as [|line pre IH]; intros d Hpre.
  - reflexivity.
  - simpl app. rewrite status_loop_step.
    destruct (Hpre line (or_introl eq_refl)) as [Hnb Hc].
    apply String.eqb_neq in Hnb. rewrite Hnb, Hc.
    rewrite IH by (intros l Hl; apply Hpre; now right).
    f_equal. unfold handle_headers. cbn [map for_each]. unfold bindM.
    pose proof (status_line_returns (fst (header_of line))
                                    (snd (header_of line)) d) as H.
    destruct (status_line (fst (header_of line)) (snd (header_of line)) d)
      as [r d'].
    simpl in H. subst r. reflexivity.
Qed.

Lemma handle_headers_returns (lines : list string) (d : dict) :
  fst (handle_headers lines d) = Ok tt.
Proof.
  revert d. unfold handle_headers.
  induction lines as [|line lines IH]; intros d; [reflexivity|].
  cbn [map for_each]. unfold bindM.
  pose proof (status_line_returns (fst (header_of line))
                                  (snd (header_of line)) d) as H.
  destruct (status_line (fst (header_of line)) (snd (header_of line)) d)
    as [r d'].
  simpl in H. subst r. apply IH.
Qed.

(** C6: [_parse_status] never raises.  When the lines before the first
    blank or colon-less line are all header lines, the result is that of
    handling exactly those lines in order, whatever stands at and after the
    stopping line; without such a line every line is handled.  A players
    value that the pattern does not match changes nothing and raises
    nothing. *)
Theorem parse_status_stops (status : string) (d : dict) :
  fst (_parse_status status d) = Ok tt
  /\ (forall pre stop post,
         str_splitlines status = pre ++ stop :: post ->
         (forall l, In l pre -> is_header l) ->
         str_strip stop = "" \/ str_contains ":" stop = false ->
         _parse_status status d = handle_headers pre d)
  /\ ((forall l, In l (str_splitlines status) -> is_header l) ->
      _parse_status status d = handle_headers (str_splitlines status) d)
  /\ (forall value d0,
         re_match players_re value = None ->
         status_line "players" value d0 = (Ok tt, d0)).
Proof.
  unfold _parse_status. split; [apply status_loop_returns|].
  assert (Hpair : forall lines d0,
            handle_headers lines d0 = (Ok tt, snd (handle_headers lines d0))).
  { intros lines d0. pose proof (handle_headers_returns lines d0) as H.
    destruct (handle_headers lines d0) as [r d']. simpl in *. now subst. }
  split; [|split].
  - intros pre stop post Hlines Hpre Hstop. rewrite Hlines.
    rewrite (status_loop_headers pre (stop :: post) d Hpre).
    rewrite status_loop_step, (Hpair pre d).
    destruct Hstop as [Hb | Hc].
    + rewrite Hb. reflexivity.
    + rewrite Hc. destruct (String.eqb (str_strip stop) ""); reflexivity.
  - intros Hall.
    rewrite <- (app_nil_r (str_splitlines status)) at 1.
    rewrite (status_loop_headers _ [] d Hall). simpl. symmetry. apply Hpair.
  - intros value d0 Hno. unfold status_line. simpl. now rewrite Hno.
Qed.

Lemma parse_status_stops_witness :
  _parse_status ("hostname: a" ++ newline ++ newline ++ "hostname: b")%string []
  = (Ok tt, [("hostname", VStr "a")])
  /\ _parse_status ("hostname: a" ++ newline ++ "# userid name" ++ newline
                    ++ "hostname: b")%string []
     = (Ok tt, [("hostname", VStr "a")])
  /\ status_line "players" "many" [] = (Ok tt, []).
Proof.
  split; [|split].
  - apply (proj1 (proj2 (parse_status_stops
             ("hostname: a" ++ newline ++ newline ++ "hostname: b")%string []))
             ["hostname: a"] "" ["hostname: b"] eq_refl).
    + intros l [<- | []]. split; [discriminate | reflexivity].
    + left. reflexivity.
  - apply (proj1 (proj2 (parse_status_stops
             ("hostname: a" ++ newline ++ "# userid name" ++ newline
              ++ "hostname: b")%string []))
             ["hostname: a"] "# userid name" ["hostname: b"] eq_refl).
    + intros l [<- | []]. split; [discriminate | reflexivity].
    + right. reflexivity.
  - apply (proj2 (proj2 (proj2 (parse_status_stops "" [])))). reflexivity.
Defined.

(** ** The player-count pattern *)

Lemma str_take_app (run rest : string) :
  str_take (String.length run) (run ++ rest) = run.
Proof.
  induction run as [|c run IH]; simpl.
  - destruct rest; reflexivity.
  - now rewrite IH.
Qed.

Lemma str_length_app (run rest : string) :
  String.length (run ++ rest) = String.length run + String.length rest.
Proof.
  induction run as [|c run IH]; simpl; [reflexivity | now rewrite IH].
Qed.

Lemma consumed_app (run rest : string) : consumed (run ++ rest) rest = run.
Proof.
  unfold consumed. rewrite str_length_app.
  replace (String.length run + String.length rest - String.length rest)
    with (String.length run) by lia.
  apply str_take_app.
Qed.

Lemma star_match_stop {A : Type} (p : ascii -> bool) (s : string)
      (k : string -> option A) :
  starts_with p s = false -> star_match p s k = k s.
Proof.
  destruct s as [|c s]; simpl; [reflexivity|]. now intros ->.
Qed.

(** A greedy repetition over a run of the class that ends where the class
    ends takes the whole run when the rest of the pattern then matches. *)
Lemma star_match_run {A : Type} (p : ascii -> bool) (run rest : string)
      (k : string -> option A) (x : A) :
  all_chars p run = true -> starts_with p rest = false ->
  k rest = Some x -> star_match p (run ++ rest) k = Some x.
Proof.
  intros Hrun Hrest Hk. induction run as [|c run IH]; simpl in *.
  - now rewrite star_match_stop.
  - apply andb_true_iff in Hrun. destruct Hrun as [Hc Hrun].
    rewrite Hc, (IH Hrun). reflexivity.
Qed.

Lemma plus_match_run {A : Type} (p : ascii -> bool) (run rest : string)
      (k : string -> option A) (x : A) :
  starts_with p run = true -> all_chars p run = true ->
  starts_with p rest = false ->
  k rest = Some x -> plus_match p (run ++ rest) k = Some x.
Proof.
  intros Hne Hrun Hrest Hk. destruct run as [|c run]; simpl in *.
  - discriminate.
  - rewrite Hne. apply andb_true_iff in Hrun.
    now apply star_match_run.
Qed.

Lemma named_plus_run {A : Type} (name : string) (p : ascii -> bool)
      (run rest : string) (caps : captures)
      (k : string -> captures -> option A) (x : A) :
  starts_with p run = true -> all_chars p run = true ->
  starts_with p rest = false ->
  k rest ((name, run) :: caps) = Some x ->
  rmatch (Named name (Plus p)) (run ++ rest) caps k = Some x.
Proof.
  intros Hne Hrun Hrest Hk. cbn [rmatch].
  apply plus_match_run; try assumption. now rewrite consumed_app.
Qed.

Lemma numeral_not_space (s rest : string) :
  is_numeral s = true -> starts_with isspace (s ++ rest) = false.
Proof.
  unfold is_numeral. destruct s as [|c s]; simpl; [discriminate|].
  intros H. apply andb_true_iff in H. destruct H as [H _].
  destruct c as [[] [] [] [] [] [] [] []]; try discriminate H; reflexivity.
Qed.

Section Steps.
Context {A : Type}.
Variables (s : string) (caps : captures)
          (k : string -> captures -> option A) (x : A).

Lemma eps_some : k s caps = Some x -> rmatch Eps s caps k = Some x.
Proof. exact (fun H => H). Qed.

Lemma seq_some (r1 r2 : regex) :
  rmatch r1 s caps (fun s1 caps1 => rmatch r2 s1 caps1 k) = Some x ->
  rmatch (r1 >> r2) s caps k = Some x.
Proof. exact (fun H => H). Qed.

Lemma group_some (r : regex) :
  rmatch r s caps k = Some x -> rmatch (Group r) s caps k = Some x.
Proof. exact (fun H => H). Qed.

Lemma opt_take (r : regex) :
  rmatch r s caps k = Some x -> rmatch (Opt r) s caps k = Some x.
Proof. cbn [rmatch]. now intros ->. Qed.

Lemma opt_skip (r : regex) :
  rmatch r s caps k = None -> k s caps = Some x ->
  rmatch (Opt r) s caps k = Some x.
Proof. cbn [rmatch]. now intros ->. Qed.

Lemma lit_some (c : ascii) :
  k s caps = Some x -> rmatch (Lit c) (String c s) caps k = Some x.
Proof. cbn [rmatch]. now rewrite Ascii.eqb_refl. Qed.

Lemma class_some (p : ascii -> bool) (c : ascii) :
  p c = true -> k s caps = Some x ->
  rmatch (Class p) (String c s) caps k = Some x.
Proof. cbn [rmatch]. now intros ->. Qed.

Lemma plus_one (p : ascii -> bool) (c : ascii) :
  p c = true -> starts_with p s = false -> k s caps = Some x ->
  rmatch (Plus p) (String c s) caps k = Some x.
Proof.
  intros Hc Hs Hk. cbn [rmatch plus_match]. rewrite Hc.
  now rewrite star_match_stop.
Qed.
End Steps.

Ltac re_side :=
  first [ reflexivity | assumption
        | apply numeral_not_space; assumption ].

(** One step of the matcher on a goal [rmatch r s caps k = Some x], led by
    the shape of [r]. *)
Ltac re_step :=
  lazymatch goal with
  | |- rmatch ?r _ _ _ = Some _ =>
      lazymatch r with
      | lits ?w => let r' := eval cbn [lits] in r in change r with r'
      | Eps => apply eps_some
      | Seq _ _ => apply seq_some
      | Group _ => apply group_some
      | Named _ (Plus _) =>
          apply named_plus_run; [re_side | re_side | re_side |]
      | Plus _ => apply plus_one; [re_side | re_side |]
      | Lit _ => apply lit_some
      | Class _ => apply class_some; [re_side |]
      | Opt _ => first [ apply opt_skip; [reflexivity |] | apply opt_take ]
      end
  end;
  cbv beta; cbn [append].

Lemma players_re_grammar (P M suffix : string) (bots : option string)
      (slash : option ascii) :
  is_numeral P = true -> is_numeral M = true ->
  (forall B, bots = Some B -> is_numeral B = true) ->
  (forall D, slash = Some D -> isdecimal D = true) ->
  re_match players_re (players_value P bots M slash suffix)
  = Some (("max_players", M) ::
          match bots with Some B => [("bots", B)] | None => [] end ++
          [("players", P)]).
Proof.
  intros HP HM HB HD.
  pose proof HP as HP'. pose proof HM as HM'.
  unfold is_numeral in HP', HM'. apply andb_true_iff in HP', HM'.
  destruct HP' as [HP1 HP2]. destruct HM' as [HM1 HM2].
  unfold re_match, players_re, players_value.
  destruct bots as [B|].
  - pose proof (HB B eq_refl) as HB'. pose proof HB' as HB''.
    unfold is_numeral in HB''. apply andb_true_iff in HB''.
    destruct HB'' as [HB1 HB2].
    destruct slash as [D|];
      try (pose proof (HD D eq_refl) as HD'); cbn [append];
      repeat re_step; reflexivity.
  - destruct slash as [D|];
      try (pose proof (HD D eq_refl) as HD'); cbn [append];
      repeat re_step; reflexivity.
Qed.

Lemma star_match_sound {A : Type} (p : ascii -> bool) (s : string)
      (k : string -> option A) (x : A) :
  star_match p s k = Some x ->
  exists run s', all_chars p run = true /\ s = (run ++ s')%string
                 /\ k s' = Some x.
Proof.
  induction s as [|c s IH]; simpl; intros H.
  - exists "", "". repeat split. exact H.
  - destruct (p c) eqn:Hc.
    + destruct (star_match p s k) as [y|] eqn:E.
      * inversion H; subst y. destruct (IH eq_refl) as [run [s' [Hr [Hs Hk]]]].
        exists (String c run), s'. simpl. rewrite Hc, Hr, Hs. now repeat split.
      * exists "", (String c s). now repeat split.
    + exists "", (String c s). now repeat split.
Qed.

Lemma rmatch_sound {A : Type} (r : regex) :
  forall (s : string) (caps : captures) (k : string -> captures -> option A)
         (x : A),
    rmatch r s caps k = Some x ->
    exists s' caps', matches r s caps s' caps' /\ k s' caps' = Some x.
Proof.
  induction r as [|c|p|p|r1 IH1 r2 IH2|r1 IH1|name r1 IH1|r1 IH1];
    intros s caps k x H; cbn [rmatch] in H; cbn [matches].
  - exists s, caps. now repeat split.
  - destruct s as [|c' s]; [discriminate|].
    destruct (Ascii.eqb c' c) eqn:E; [|discriminate].
    apply Ascii.eqb_eq in E. subst. exists s, caps. now repeat split.
  - destruct s as [|c' s]; [discriminate|].
    destruct (p c') eqn:E; [|discriminate].
    exists s, caps. split; [exists c'; now repeat split | exact H].
  - unfold plus_match in H. destruct s as [|c s]; [discriminate|].
    destruct (p c) eqn:E; [|discriminate].
    destruct (star_match_sound p s _ x H) as [run [s' [Hr [Hs Hk]]]].
    exists s', caps. split; [|exact Hk].
    exists (String c run). simpl. rewrite E, Hr, Hs. now repeat split.
  - destruct (IH1 _ _ _ _ H) as [s1 [caps1 [H1 H2]]].
    destruct (IH2 _ _ _ _ H2) as [s2 [caps2 [H3 H4]]].
    exists s2, caps2. split; [|exact H4]. now exists s1, caps1.
  - destruct (rmatch r1 s caps k) as [y|] eqn:E.
    + inversion H; subst y. destruct (IH1 _ _ _ _ E) as [s1 [caps1 [H1 H2]]].
      exists s1, caps1. split; [now left | exact H2].
    + exists s, caps. split; [now right | exact H].
  - destruct (IH1 _ _ _ _ H) as [s1 [caps1 [H1 H2]]].
    exists s1, ((name, consumed s s1) :: caps1). split; [|exact H2].
    now exists caps1.
  - exact (IH1 _ _ _ _ H).
Qed.

Lemma str_app_assoc (a b c : string) : ((a ++ b) ++ c = a ++ b ++ c)%string.
Proof. induction a as [|x a IH]; simpl; [reflexivity | now rewrite IH]. Qed.

Lemma matches_lits (w s s' : string) (caps caps' : captures) :
  matches (lits w) s caps s' caps' -> s = (w ++ s')%string /\ caps' = caps.
Proof.
  revert s caps. induction w as [|c w IH]; intros s caps; cbn [lits matches].
  - intros [-> ->]. split; reflexivity.
  - intros [s1 [caps1 [[-> ->] H]]]. destruct (IH _ _ H) as [-> ->].
    split; reflexivity.
Qed.

Lemma is_substring_head (t post : string) : is_substring t (t ++ post).
Proof. exists "", post. reflexivity. Qed.

Lemma is_substring_skip (t pre s : string) :
  is_substring t s -> is_substring t (pre ++ s).
Proof.
  intros [a [b ->]]. exists (pre ++ a)%string, b. now rewrite str_app_assoc.
Qed.

(** A match consumes a prefix of the text it starts at. *)
Lemma matches_suffix (r : regex) :
  forall s caps s' caps',
    matches r s caps s' caps' -> exists pre, s = (pre ++ s')%string.
Proof.
  induction r as [|c|p|p|r1 IH1 r2 IH2|r1 IH1|name r1 IH1|r1 IH1];
    intros s caps s' caps'; cbn [matches].
  - intros [-> _]. now exists "".
  - intros [-> _]. now exists (String c "").
  - intros [c [_ [-> _]]]. now exists (String c "").
  - intros [run [_ [_ [-> _]]]]. now exists run.
  - intros [s1 [caps1 [H1 H2]]].
    destruct (IH1 _ _ _ _ H1) as [pre1 ->].
    destruct (IH2 _ _ _ _ H2) as [pre2 ->].
    exists (pre1 ++ pre2)%string. now rewrite str_app_assoc.
  - intros [H | [-> _]]; [exact (IH1 _ _ _ _ H) | now exists ""].
  - intros [caps1 [H _]]. exact (IH1 _ _ _ _ H).
  - exact (IH1 _ _ _ _).
Qed.

(** A pattern without named groups leaves the captures as they are. *)
Lemma matches_no_names (r : regex) :
  group_names r = [] ->
  forall s caps s' caps', matches r s caps s' caps' -> caps' = caps.
Proof.
  induction r as [|c|p|p|r1 IH1 r2 IH2|r1 IH1|name r1 IH1|r1 IH1];
    cbn [group_names]; intros Hn s caps s' caps'; cbn [matches].
  - now intros [_ ->].
  - now intros [_ ->].
  - now intros [c [_ [_ ->]]].
  - now intros [run [_ [_ [_ ->]]]].
  - apply app_eq_nil in Hn. destruct Hn as [Hn1 Hn2].
    intros [s1 [caps1 [H1 H2]]].
    rewrite (IH2 Hn2 _ _ _ _ H2). exact (IH1 Hn1 _ _ _ _ H1).
  - intros [H | [_ ->]]; [exact (IH1 Hn _ _ _ _ H) | reflexivity].
  - discriminate.
  - exact (IH1 Hn _ _ _ _).
Qed.

(** Every match of the player-count pattern: [players] and [max_players]
    are numerals that stand in the value, [players] at its start; [bots] is
    absent or such a numeral. *)
Lemma players_re_captures (value : string) (m : captures) :
  re_match players_re value = Some m ->
  exists P M,
    is_numeral P = true /\ is_numeral M = true
    /\ (exists rest, value = (P ++ rest)%string)
    /\ is_substring M value
    /\ capture_get "players" m = Some P
    /\ capture_get "max_players" m = Some M
    /\ (capture_get "bots" m = None
        \/ exists B, is_numeral B = true /\ is_substring B value
                     /\ capture_get "bots" m = Some B).
Proof.
  intros H. unfold re_match in H.
  destruct (rmatch_sound players_re value [] _ m H) as [s' [caps' [Hm Hk]]].
  inversion Hk; subst caps'; clear Hk H.
  unfold players_re in Hm. cbn [matches] in Hm.
  destruct Hm as [s1 [c1 [[c1' [[P [HP1 [HP2 [Hv E1]]]] E1']]
                  [s2 [c2 [[W1 [_ [_ [Hs1 E2]]]]
                  [s3 [c3 [Hhumans
                  [s4 [c4 [Hbots
                  [s5 [c5 [[Hs4 E5]
                  [s6 [c6 [[c6' [[M [HM1 [HM2 [Hs5 E6]]]] E6']]
                  [s7 [c7 [Hslash Hmax]]]]]]]]]]]]]]]]]]]]].
  assert (Hh : (exists pre, s2 = (pre ++ s3)%string) /\ c3 = c2).
  { split.
    - apply (matches_suffix (Opt (Group (lits "humans," >> Plus isspace)))
               s2 c2 s3 c3 Hhumans).
    - apply (matches_no_names (Opt (Group (lits "humans," >> Plus isspace)))
               eq_refl s2 c2 s3 c3 Hhumans). }
  destruct Hh as [[preh Hs2] E3].
  assert (E7 : m = c6).
  { rewrite (proj2 (matches_lits _ _ _ _ _ Hmax)).
    apply (matches_no_names (Opt (Group (Lit "/" >> Class isdecimal)))
             eq_refl s6 c6 s7 c7 Hslash). }
  assert (Hb : exists preb, s3 = (preb ++ s4)%string).
  { apply (matches_suffix
             (Opt (Group (Named "bots" (Plus isdecimal) >> Plus isspace >>
                          lits "bots" >> Plus isspace))) s3 c3 s4 c4 Hbots). }
  destruct Hb as [preb Hs3].
  assert (EP : consumed value s1 = P) by (rewrite Hv; apply consumed_app).
  assert (EM : consumed s5 s6 = M) by (rewrite Hs5; apply consumed_app).
  subst c1' c1 c2 c3 c5 c6' c6 m. rewrite EP, EM in *.
  exists P, M.
  split; [unfold is_numeral; now rewrite HP1, HP2|].
  split; [unfold is_numeral; now rewrite HM1, HM2|].
  split; [now exists s1|].
  split.
  { rewrite Hv, Hs1, Hs2, Hs3, Hs4, Hs5. do 4 apply is_substring_skip.
    apply (is_substring_skip M (String "(" "")). apply is_substring_head. }
  destruct Hbots as [[sb [cb [[cb' [[B [HB1 [HB2 [HsB Eb]]]] Eb']] Hrest]]]
                    | [_ ->]].
  - destruct Hrest as [sw [cw [[_ [_ [_ [_ Ew]]]]
                      [sl [cl [Hl [_ [_ [_ [_ E4]]]]]]]]]].
    destruct (matches_lits _ _ _ _ _ Hl) as [_ El].
    assert (EB : consumed s3 sb = B) by (rewrite HsB; apply consumed_app).
    subst c4 cl cw cb cb'. rewrite EB. cbn.
    repeat split. right. exists B.
    split; [unfold is_numeral; now rewrite HB1, HB2|].
    split; [|reflexivity].
    rewrite Hv, Hs1, Hs2, HsB. do 3 apply is_substring_skip.
    apply is_substring_head.
  - cbn. repeat split. now left.
Qed.

(** What the players branch of [status_line] does on a match: the three
    named groups are assigned, in the order of the pattern. *)
Lemma status_line_players (value : string) (m : captures) (d : dict) :
  re_match players_re value = Some m ->
  status_line "players" value d
  = (Ok tt,
     dict_set "max_players" (pyval_of_capture (capture_get "max_players" m))
       (dict_set "bots" (pyval_of_capture (capture_get "bots" m))
          (dict_set "players" (pyval_of_capture (capture_get "players" m))
             d))).
Proof.
  intros Hm. unfold status_line. cbn [String.eqb Ascii.eqb Bool.eqb].
  rewrite Hm. rewrite for_each_setitem. reflexivity.
Qed.

Lemma players_keys_get (vp vb vm : pyval) (d : dict) :
  let d' := dict_set "max_players" vm
              (dict_set "bots" vb (dict_set "players" vp d)) in
  dict_get "players" d' = Some vp
  /\ dict_get "bots" d' = Some vb
  /\ dict_get "max_players" d' = Some vm.
Proof.
  intros d'. unfold d'. repeat split.
  - rewrite !dict_get_set_other by discriminate. apply dict_get_set_same.
  - rewrite dict_get_set_other by discriminate. apply dict_get_set_same.
  - apply dict_get_set_same.
Qed.

Lemma dict_get_has (k : string) (v : pyval) (d : dict) :
  dict_get k d = Some v -> dict_has k d = true.
Proof.
  intros H. apply dict_has_In. induction d as [|[k' v'] d IH]; simpl in *.
  - discriminate.
  - destruct (String.eqb k' k) eqn:E.
    + apply String.eqb_eq in E. now left.
    + right. now apply IH.
Qed.

(** ** Decimal numerals *)

Lemma string_of_uint_digits (u : Decimal.uint) :
  all_chars isdecimal (NilEmpty.string_of_uint u) = true.
Proof.
  induction u; simpl; try reflexivity; exact IHu.
Qed.

Lemma decimal_is_numeral (n : N) : is_numeral (decimal n) = true.
Proof.
  unfold decimal, is_numeral, NilZero.string_of_uint.
  destruct (N.to_uint n) as [|u|u|u|u|u|u|u|u|u|u]; try reflexivity;
    simpl; apply string_of_uint_digits.
Qed.

Lemma numeral_value_decimal (n : N) : numeral_value (decimal n) = Some n.
Proof.
  unfold numeral_value, decimal. rewrite NilZero.usu.
  - simpl. f_equal. apply DecimalN.Unsigned.of_to.
  - destruct n as [|p]; simpl; [discriminate|].
    apply DecimalPos.Unsigned.to_uint_nonnil.
Qed.

(** C4, as the code has it: for naturals [p], [b], [m] written in decimal,
    the players value in each of the three layouts gives the same two
    entries, [players] and [max_players], and they are the numerals of [p]
    and [m] kept as text; the digit after the slash leaves no trace. *)
Theorem players_layouts_agree (p b m : N) (D : ascii) (suffix : string)
        (d : dict) (HD : isdecimal D = true) :
  forall value,
    value = (decimal p ++ " humans, " ++ decimal b ++ " bots (" ++ decimal m
             ++ "/" ++ String D (" max)" ++ suffix))%string
    \/ value = (decimal p ++ " (" ++ decimal m ++ " max)")%string
    \/ value = (decimal p ++ " humans, " ++ decimal b ++ " bots ("
                ++ decimal m ++ " max)")%string ->
    fst (status_line "players" value d) = Ok tt
    /\ dict_get "players" (snd (status_line "players" value d))
       = Some (VStr (decimal p))
    /\ dict_get "max_players" (snd (status_line "players" value d))
       = Some (VStr (decimal m))
    /\ numeral_value (decimal p) = Some p
    /\ numeral_value (decimal m) = Some m.
Proof.
  intros value Hvalue.
  assert (Hm : exists bots,
             re_match players_re value
             = Some (("max_players", decimal m) ::
                     match bots with Some B => [("bots", B)] | None => [] end
                     ++ [("players", decimal p)])).
  { destruct Hvalue as [-> | [-> | ->]].
    - exists (Some (decimal b)).
      apply (players_re_grammar (decimal p) (decimal m) suffix
               (Some (decimal b)) (Some D));
        try apply decimal_is_numeral.
      + intros B [= <-]. apply decimal_is_numeral.
      + intros D0 [= <-]. exact HD.
    - exists None.
      apply (players_re_grammar (decimal p) (decimal m) "" None None);
        try apply decimal_is_numeral; discriminate.
    - exists (Some (decimal b)).
      apply (players_re_grammar (decimal p) (decimal m) ""
               (Some (decimal b)) None);
        try apply decimal_is_numeral.
      + intros B [= <-]. apply decimal_is_numeral.
      + discriminate. }
  destruct Hm as [bots Hm].
  rewrite (status_line_players value _ d Hm). cbn [fst snd].
  destruct (players_keys_get
              (pyval_of_capture (capture_get "players"
                 (("max_players", decimal m) ::
                  match bots with Some B => [("bots", B)] | None => [] end
                  ++ [("players", decimal p)])))
              (pyval_of_capture (capture_get "bots"
                 (("max_players", decimal m) ::
                  match bots with Some B => [("bots", B)] | None => [] end
                  ++ [("players", decimal p)])))
              (pyval_of_capture (capture_get "max_players"
                 (("max_players", decimal m) ::
                  match bots with Some B => [("bots", B)] | None => [] end
                  ++ [("players", decimal p)]))) d) as [Hp [_ Hmax]].
  split; [reflexivity|].
  split; [rewrite Hp; destruct bots; reflexivity|].
  split; [rewrite Hmax; reflexivity|].
  split; apply numeral_value_decimal.
Qed.

Lemma players_layouts_agree_witness :
  dict_get "players"
    (snd (status_line "players" "12 humans, 0 bots (16/0 max) (hibernating)" []))
  = Some (VStr "12")
  /\ dict_get "players" (snd (status_line "players" "12 (16 max)" []))
     = Some (VStr "12")
  /\ dict_get "max_players"
       (snd (status_line "players" "12 humans, 0 bots (16 max)" []))
     = Some (VStr "16").
Proof.
  split; [|split].
  - apply (players_layouts_agree 12 0 16 "0" " (hibernating)" [] eq_refl
             "12 humans, 0 bots (16/0 max) (hibernating)").
    left. reflexivity.
  - apply (players_layouts_agree 12 0 16 "0" " (hibernating)" [] eq_refl
             "12 (16 max)").
    right. left. reflexivity.
  - apply (players_layouts_agree 12 0 16 "0" " (hibernating)" [] eq_refl
             "12 humans, 0 bots (16 max)").
    right. right. reflexivity.
Defined.

(** C4 as the claim has it fails: what is stored for [12 (16 max)] is the
    text of the numerals, not the integers 12 and 16. *)
Lemma players_integers_counterexample :
  dict_get "players" (snd (status_line "players" "12 (16 max)" []))
  = Some (VStr "12")
  /\ dict_get "players" (snd (status_line "players" "12 (16 max)" []))
     <> Some (VInt 12)
  /\ dict_get "max_players" (snd (status_line "players" "12 (16 max)" []))
     = Some (VStr "16")
  /\ dict_get "max_players" (snd (status_line "players" "12 (16 max)" []))
     <> Some (VInt 16).
Proof.
  repeat split; try reflexivity; vm_compute; discriminate.
Qed.

(** C10: a players value without the bots segment still binds the key
    [bots], to [None]; [players] and [max_players] hold the matched numerals
    as text; and on any match at all the three keys hold the numerals as
    they stand in the value ([bots] that or [None]), never a number. *)
Theorem players_without_bots (P M suffix : string) (d : dict)
        (HP : is_numeral P = true) (HM : is_numeral M = true) :
  let value := (P ++ " (" ++ M ++ " max)" ++ suffix)%string in
  let d' := snd (status_line "players" value d) in
  dict_has "bots" d' = true
  /\ dict_get "bots" d' = Some VNone
  /\ dict_get "players" d' = Some (VStr P)
  /\ dict_get "max_players" d' = Some (VStr M)
  /\ (forall value0 m d0,
         re_match players_re value0 = Some m ->
         exists P0 M0,
           is_numeral P0 = true /\ is_numeral M0 = true
           /\ (exists rest, value0 = (P0 ++ rest)%string)
           /\ is_substring M0 value0
           /\ dict_get "players" (snd (status_line "players" value0 d0))
              = Some (VStr P0)
           /\ dict_get "max_players" (snd (status_line "players" value0 d0))
              = Some (VStr M0)
           /\ (dict_get "bots" (snd (status_line "players" value0 d0))
               = Some VNone
               \/ exists B0,
                    is_numeral B0 = true /\ is_substring B0 value0
                    /\ dict_get "bots" (snd (status_line "players" value0 d0))
                       = Some (VStr B0))).
Proof.
  intros value d'.
  assert (Hm : re_match players_re value
               = Some [("max_players", M); ("players", P)]).
  { apply (players_re_grammar P M suffix None None); try assumption;
      discriminate. }
  unfold d'. rewrite (status_line_players value _ d Hm). cbn [snd].
  destruct (players_keys_get
              (pyval_of_capture
                 (capture_get "players" [("max_players", M); ("players", P)]))
              (pyval_of_capture
                 (capture_get "bots" [("max_players", M); ("players", P)]))
              (pyval_of_capture
                 (capture_get "max_players"
                    [("max_players", M); ("players", P)])) d)
    as [Hp [Hb Hmax]].
  split; [apply (dict_get_has _ _ _ Hb)|].
  split; [exact Hb|]. split; [exact Hp|]. split; [exact Hmax|].
  intros value0 m d0 Hm0.
  rewrite (status_line_players value0 m d0 Hm0). cbn [snd].
  destruct (players_keys_get
              (pyval_of_capture (capture_get "players" m))
              (pyval_of_capture (capture_get "bots" m))
              (pyval_of_capture (capture_get "max_players" m)) d0)
    as [Hp0 [Hb0 Hmax0]].
  destruct (players_re_captures value0 m Hm0)
    as [P0 [M0 [HP0 [HM0 [Hpre [Hsub [Ep [Em Eb]]]]]]]].
  exists P0, M0.
  rewrite Hp0, Hmax0, Hb0, Ep, Em.
  repeat (split; [first [assumption | reflexivity]|]).
  destruct Eb as [-> | [B0 [HB0 [HsubB ->]]]]; [now left|].
  right. exists B0. now repeat split.
Qed.

Lemma players_without_bots_witness :
  dict_get "bots" (snd (status_line "players" "12 (16 max)" []))
  = Some VNone
  /\ dict_get "players" (snd (status_line "players" "12 (16 max)" []))
     = Some (VStr "12").
Proof.
  destruct (players_without_bots "12" "16" "" [] eq_refl eq_refl)
    as [_ [Hb [Hp _]]].
  split; [exact Hb | exact Hp].
Defined.

(** ** The whole scrape *)

Lemma example_floats :
  float_is_ratio float_1_5 3 2
  /\ float_is_ratio float_2_5 5 2
  /\ float_is_ratio float_30 30 1
  /\ valid_binary prec emax float_1_5 = true
  /\ valid_binary prec emax float_2_5 = true
  /\ valid_binary prec emax float_30 = true.
Proof.
  unfold float_is_ratio. simpl. repeat split; try lia; reflexivity.
Qed.

(** C5, as the code has it: on the example the dictionary holds the three
    entries of the target first, then [hostname], the three player fields
    as the text of their numerals, and the three renamed stats columns as
    floats; a scrape that receives the example renders exactly this
    dictionary. *)
Theorem example_mapping (ip port : param) :
  _parse_query stats_example status_example (target_metadata ip port)
  = (Ok tt,
     [ ("ip", pyval_of_param ip);
       ("port", pyval_of_param port);
       ("target", VStr (target_label ip port));
       ("hostname", VStr "My Server");
       ("players", VStr "5");
       ("bots", VStr "2");
       ("max_players", VStr "10");
       ("NetIn", VFloat float_1_5);
       ("NetOut", VFloat float_2_5);
       ("varms", VFloat float_30) ])
  /\ (forall self srv req password events,
         path req = "/metrics" ->
         _get_target self req = Ok (ip, port, password) ->
         _rcon_query srv ip port password
         = (Ok (status_example, stats_example), events) ->
         request_handler self srv req
         = (Ok {| text := Rendered
                    (snd (_parse_query stats_example status_example
                            (target_metadata ip port)));
                  status := 200 |}, events)).
Proof.
  assert (H : _parse_query stats_example status_example
                           (target_metadata ip port)
              = (Ok tt,
                 [ ("ip", pyval_of_param ip);
                   ("port", pyval_of_param port);
                   ("target", VStr (target_label ip port));
                   ("hostname", VStr "My Server");
                   ("players", VStr "5");
                   ("bots", VStr "2");
                   ("max_players", VStr "10");
                   ("NetIn", VFloat float_1_5);
                   ("NetOut", VFloat float_2_5);
                   ("varms", VFloat float_30) ])).
  { unfold target_metadata.
    generalize (pyval_of_param ip) (pyval_of_param port)
               (VStr (target_label ip port)).
    intros vi vp vt. vm_compute. reflexivity. }
  split; [exact H|].
  intros self srv req password events Hpath Htarget Hquery.
  unfold request_handler. rewrite Hpath, Htarget, Hquery.
  rewrite String.eqb_refl. cbn [negb]. rewrite H. reflexivity.
Qed.

(** C5 as the claim has it fails: the player fields are text, not the
    integers 5, 2 and 10, and the target is written with braces. *)
Lemma example_mapping_counterexample :
  let d := snd (_parse_query stats_example status_example
                  (target_metadata (PStr "1.2.3.4") (PStr "27015"))) in
  dict_get "players" d = Some (VStr "5")
  /\ dict_get "players" d <> Some (VInt 5)
  /\ dict_get "bots" d <> Some (VInt 2)
  /\ dict_get "max_players" d <> Some (VInt 10)
  /\ dict_get "target" d = Some (VStr "{1.2.3.4}:{27015}")
  /\ dict_get "target" d <> Some (VStr "1.2.3.4:27015").
Proof.
  vm_compute. repeat split; discriminate.
Qed.

Lemma parse_query_stats_raise (stats status : string) (d : dict) (e : exn) :
  (forall d0, _parse_stats stats d0 = (Raise e, d0)) ->
  _parse_query stats status d = (Raise e, snd (_parse_status status d)).
Proof.
  intros Hstats. unfold _parse_query, bindM.
  pose proof (status_loop_returns (str_splitlines status) d) as H.
  unfold _parse_status.
  destruct (status_loop (str_splitlines status) d) as [r d'].
  simpl in H. subst r. cbn [snd]. apply Hstats.
Qed.

(** C1, as the code has it: when a token of the second line of the stats
    text is no numeral, [_parse_stats] raises [ValueError] before it assigns
    anything, and [request_handler] has no handler for it: the exception
    leaves the handler, so that no response and no dictionary is produced. *)
Theorem bad_stats_value_escapes (self : SRCDSExporter) (srv : rcon_server)
        (req : request) (ip port password : param) (st sts : string)
        (events : list io_event) (l0 l1 : string) (rest : list string)
        (v : string)
        (Hpath : path req = "/metrics")
        (Htarget : _get_target self req = Ok (ip, port, password))
        (Hquery : _rcon_query srv ip port password = (Ok (st, sts), events))
        (Hlines : str_splitlines sts = l0 :: l1 :: rest)
        (Hin : In v (str_split l1))
        (Hbad : forall f, py_float v <> Ok f) :
  (forall d, _parse_stats sts d = (Raise ValueError, d))
  /\ request_handler self srv req = (Raise ValueError, events).
Proof.
  assert (Hstats : forall d, _parse_stats sts d = (Raise ValueError, d)).
  { intros d. rewrite (parse_stats_unfold sts l0 l1 rest d Hlines).
    now rewrite (floats_of_bad (str_split l1) v Hin Hbad). }
  split; [exact Hstats|].
  unfold request_handler. rewrite Hpath, Htarget, Hquery.
  rewrite String.eqb_refl. cbn [negb].
  rewrite (parse_query_stats_raise sts st _ ValueError Hstats). reflexivity.
Qed.

Lemma bad_stats_value_escapes_witness :
  request_handler multi_exporter bad_stats_server scrape_request
  = (Raise ValueError,
     [EvCreate (PStr "1.2.3.4") (PStr "27015") (PStr "secret");
      EvCommand "status"; EvCommand "stats"; EvClose]).
Proof.
  assert (Hbad : forall f, py_float "n/a" <> Ok f)
    by (intros f; vm_compute; discriminate).
  apply (proj2 (bad_stats_value_escapes multi_exporter bad_stats_server
                  scrape_request (PStr "1.2.3.4") (PStr "27015")
                  (PStr "secret") status_example
                  ("In Out" ++ newline ++ "1.5 n/a" ++ newline)%string
                  _ "In Out" "1.5 n/a" [] "n/a"
                  eq_refl eq_refl eq_refl eq_refl
                  (or_intror (or_introl eq_refl)) Hbad)).
Defined.

(** C1 as the claim has it fails: with a value that is no numeral the
    handler gives no down response; a [ValueError] leaves it. *)
Lemma bad_stats_value_counterexample :
  py_float "n/a" = Raise ValueError
  /\ fst (request_handler multi_exporter bad_stats_server scrape_request)
     = Raise ValueError
  /\ fst (request_handler multi_exporter bad_stats_server scrape_request)
     <> Ok _server_down_response.
Proof.
  vm_compute. repeat split; discriminate.
Qed.

(** * Further properties of the code *)

(** ** [_rcon_query]: the session *)

(** The session is opened first; when [RCON.create] gave an object it is
    closed exactly once, as the last event, on every path; when it raised or
    gave [None] nothing is sent and nothing is closed. *)
Theorem rcon_query_closes_once (srv : rcon_server) (ip port password : param) :
  let events := snd (_rcon_query srv ip port password) in
  hd_error events = Some (EvCreate ip port password)
  /\ (on_create srv = Ok true ->
      length (filter is_close events) = 1
      /\ last events (EvCreate ip port password) = EvClose)
  /\ (on_create srv <> Ok true ->
      events = [EvCreate ip port password]).
Proof.
  unfold _rcon_query.
  destruct (on_create srv) as [[|]|e]; simpl.
  - split; [|split].
    + destruct (on_status srv); [destruct (on_stats srv)|]; reflexivity.
    + intros _.
      destruct (on_status srv); [destruct (on_stats srv)|]; split; reflexivity.
    + intros H. now elim H.
  - repeat split; discriminate.
  - repeat split; discriminate.
Qed.

Lemma rcon_query_closes_once_witness :
  length (filter is_close
            (snd (_rcon_query
                    {| on_create := Ok true; on_status := Raise TimeoutError;
                       on_stats := Ok "" |} PNone PNone PNone))) = 1
  /\ snd (_rcon_query (unreachable_server ConnectionRefusedError)
                      PNone PNone PNone)
     = [EvCreate PNone PNone PNone].
Proof.
  split.
  - apply (proj1 (proj2 (rcon_query_closes_once
             {| on_create := Ok true; on_status := Raise TimeoutError;
                on_stats := Ok "" |} PNone PNone PNone))).
    reflexivity.
  - apply (proj2 (proj2 (rcon_query_closes_once
             (unreachable_server ConnectionRefusedError) PNone PNone PNone))).
    discriminate.
Defined.


(** When [RCON.create] returns [None] the code runs [raise Error]; the name
    is not defined, so a [NameError] is raised, nothing is sent to the
    server, and the handler answers with the down response. *)
Theorem rcon_none_gives_down (self : SRCDSExporter) (srv : rcon_server)
        (req : request) (ip port password : param)
        (Hpath : path req = "/metrics")
        (Htarget : _get_target self req = Ok (ip, port, password))
        (Hnone : on_create srv = Ok false) :
  _rcon_query srv ip port password
  = (Raise NameError, [EvCreate ip port password])
  /\ request_handler self srv req
     = (Ok _server_down_response, [EvCreate ip port password]).
Proof.
  assert (H : _rcon_query srv ip port password
              = (Raise NameError, [EvCreate ip port password])).
  { unfold _rcon_query. now rewrite Hnone. }
  split; [exact H|].
  unfold request_handler. rewrite Hpath, Htarget, H. reflexivity.
Qed.

Lemma rcon_none_gives_down_witness :
  request_handler multi_exporter
    {| on_create := Ok false; on_status := Ok ""; on_stats := Ok "" |}
    scrape_request
  = (Ok _server_down_response,
     [EvCreate (PStr "1.2.3.4") (PStr "27015") (PStr "secret")]).
Proof.
  apply (proj2 (rcon_none_gives_down multi_exporter
                  {| on_create := Ok false; on_status := Ok "";
                     on_stats := Ok "" |}
                  scrape_request (PStr "1.2.3.4") (PStr "27015")
                  (PStr "secret") eq_refl eq_refl eq_refl)).
Defined.

(** ** [_get_target] in multi-target mode *)

Lemma str_app_empty (s : string) : (s ++ "")%string = s.
Proof. induction s as [|c s IH]; simpl; [reflexivity | now rewrite IH]. Qed.

Lemma str_split_on_nonempty (c : ascii) (s : string) : str_split_on c s <> [].
Proof.
  destruct s as [|c' s]; simpl; [discriminate|].
  destruct (Ascii.eqb c' c); [discriminate|].
  destruct (str_split_on c s); discriminate.
Qed.

Lemma str_split_on_no_sep (c : ascii) (s : string) :
  str_contains c s = false -> str_split_on c s = [s].
Proof.
  induction s as [|c' s IH]; simpl; intros H; [reflexivity|].
  apply orb_false_iff in H. destruct H as [Hc Hs].
  rewrite Hc, (IH Hs). reflexivity.
Qed.

Lemma str_split_on_app (c : ascii) (f rest : string) :
  str_contains c f = false ->
  str_split_on c (f ++ String c rest) = f :: str_split_on c rest.
Proof.
  induction f as [|c' f IH]; simpl; intros H.
  - now rewrite Ascii.eqb_refl.
  - apply orb_false_iff in H. destruct H as [Hc Hf].
    rewrite Hc, (IH Hf). reflexivity.
Qed.

(** The first field of a split has no separator, and the text is that
    field alone or that field, a separator and the text of the others. *)
Lemma str_split_on_head (c : ascii) (s f : string) (fs : list string) :
  str_split_on c s = f :: fs ->
  str_contains c f = false
  /\ match fs with
     | [] => s = f
     | _ :: _ =>
         exists rest, s = (f ++ String c rest)%string
                      /\ str_split_on c rest = fs
     end.
Proof.
  revert f fs. induction s as [|c' s IH]; simpl; intros f fs H.
  - inversion H; subst. split; reflexivity.
  - destruct (Ascii.eqb c' c) eqn:E.
    + apply Ascii.eqb_eq in E. subst c'. inversion H; subst. split; [reflexivity|].
      destruct (str_split_on c s) as [|g gs] eqn:Es.
      * now elim (str_split_on_nonempty c s).
      * exists s. split; [reflexivity | exact Es].
    + destruct (str_split_on c s) as [|w ws] eqn:Es.
      * now elim (str_split_on_nonempty c s).
      * inversion H; subst. destruct (IH w fs eq_refl) as [Hw Hrest].
        split; [simpl; now rewrite E, Hw|].
        destruct fs as [|g gs].
        -- now rewrite Hrest.
        -- destruct Hrest as [rest [-> Hr]]. exists rest. now split.
Qed.

(** A target [ip:port], or [ip:port:anything], with a password resolves to
    exactly that address, port and password, whatever the address and the
    port are (empty or not numeric included): what follows a second colon is
    dropped and nothing is validated. *)
Theorem get_target_multi_fields (self : SRCDSExporter) (req : request)
        (ip port password : string) (more : option string)
        (Hmode : _single_server self = false)
        (Hip : str_contains ":" ip = false)
        (Hport : str_contains ":" port = false)
        (Htarget : query_getitem "target" (query req)
                   = Ok (ip ++ ":" ++ port
                         ++ match more with
                            | Some rest => String ":" rest
                            | None => ""
                            end)%string)
        (Hpassword : query_getitem "password" (query req) = Ok password) :
  _get_target self req = Ok (PStr ip, PStr port, PStr password).
Proof.
  destruct more as [rest|].
  - apply (get_target_multi_ok self req _ password ip port
             (str_split_on ":" rest) Hmode Htarget); [|exact Hpassword].
    cbn [append]. rewrite (str_split_on_app ":" ip _ Hip).
    now rewrite (str_split_on_app ":" port rest Hport).
  - apply (get_target_multi_ok self req _ password ip port [] Hmode Htarget);
      [|exact Hpassword].
    cbn [append]. rewrite (str_split_on_app ":" ip _ Hip).
    rewrite str_app_empty. now rewrite (str_split_on_no_sep ":" port Hport).
Qed.

Lemma get_target_multi_fields_witness :
  _get_target multi_exporter
              {| path := "/metrics";
                 query := [("target", "host:notaport:junk");
                           ("password", "")] |}
  = Ok (PStr "host", PStr "notaport", PStr "").
Proof.
  apply (get_target_multi_fields multi_exporter
           {| path := "/metrics";
              query := [("target", "host:notaport:junk"); ("password", "")] |}
           "host" "notaport" "" (Some "junk")
           eq_refl eq_refl eq_refl eq_refl eq_refl).
Defined.

(** Whatever [_get_target] returns in multi-target mode comes from the
    request: the target parameter is [ip], a colon, [port] and then nothing
    or a colon and more, with no colon in [ip] and [port], and the password
    is the password parameter. *)
Theorem get_target_multi_sound (self : SRCDSExporter) (req : request)
        (t : target)
        (Hmode : _single_server self = false)
        (Hok : _get_target self req = Ok t) :
  exists ip port password more,
    t = (PStr ip, PStr port, PStr password)
    /\ str_contains ":" ip = false /\ str_contains ":" port = false
    /\ query_getitem "target" (query req)
       = Ok (ip ++ ":" ++ port
             ++ match more with
                | Some rest => String ":" rest
                | None => ""
                end)%string
    /\ query_getitem "password" (query req) = Ok password.
Proof.
  unfold _get_target in Hok. rewrite Hmode in Hok.
  destruct (query_getitem "target" (query req)) as [tgt|e]; [|discriminate].
  destruct (str_split_on ":" tgt) as [|ip [|port fs]] eqn:Es;
    cbn in Hok; try discriminate.
  destruct (query_getitem "password" (query req)) as [password|e];
    [|discriminate].
  inversion Hok; subst t; clear Hok.
  destruct (str_split_on_head ":" tgt ip (port :: fs) Es)
    as [Hip [rest [-> Hrest]]].
  destruct (str_split_on_head ":" rest port fs Hrest) as [Hport Hfs].
  destruct fs as [|g gs].
  - exists ip, port, password, None. subst rest. cbn [append].
    rewrite str_app_empty. now repeat split.
  - destruct Hfs as [rest' [-> _]].
    exists ip, port, password, (Some rest'). now repeat split.
Qed.

Lemma get_target_multi_sound_witness :
  exists ip port password more,
    (PStr "1.2.3.4", PStr "27015", PStr "secret")
    = (PStr ip, PStr port, PStr password)
    /\ str_contains ":" ip = false /\ str_contains ":" port = false
    /\ query_getitem "target" (query scrape_request)
       = Ok (ip ++ ":" ++ port
             ++ match more with
                | Some rest => String ":" rest
                | None => ""
                end)%string
    /\ query_getitem "password" (query scrape_request) = Ok password.
Proof.
  exact (get_target_multi_sound multi_exporter scrape_request
           (PStr "1.2.3.4", PStr "27015", PStr "secret") eq_refl eq_refl).
Defined.

Lemma get_target_raises (self : SRCDSExporter) (req : request) (e : exn) :
  _get_target self req = Raise e ->
  (exists msg, e = TargetSpecificationError msg)
  \/ (e = UnboundLocalError /\ _single_server self = false
      /\ query_has "target" (query req) = false).
Proof.
  intros H. unfold _get_target in H.
  destruct (_single_server self) eqn:Hmode.
  - left. destruct (query_has "target" (query req));
      [|destruct (query_has "password" (query req))];
      inversion H; eexists; reflexivity.
  - destruct (query_getitem "target" (query req)) as [tgt|e0] eqn:Et.
    + left.
      destruct (str_split_on ":" tgt) as [|ip [|port fs]]; cbn in H;
        try (inversion H; eexists; reflexivity).
      destruct (query_getitem "password" (query req));
        inversion H; eexists; reflexivity.
    + right. inversion H. repeat split.
      destruct (query_has "target" (query req)) eqn:Eh; [|reflexivity].
      apply query_getitem_has in Eh. destruct Eh as [v Hv]. congruence.
Qed.

(** The failures of multi-target mode.  A target without a colon is
    refused with a message that names it, before the password is looked at;
    a good target without a password is refused with [no password given];
    and in any mode the only exceptions of [_get_target] are
    [TargetSpecificationError] and, for a missing target in multi-target
    mode, [UnboundLocalError]. *)
Theorem get_target_failures (self : SRCDSExporter) (req : request) :
  (forall tgt,
      _single_server self = false ->
      query_getitem "target" (query req) = Ok tgt ->
      str_contains ":" tgt = false ->
      _get_target self req
      = Raise (TargetSpecificationError
                 ("target " ++ tgt ++ " is not a valid targetspecification")))
  /\ (forall tgt,
         _single_server self = false ->
         query_getitem "target" (query req) = Ok tgt ->
         str_contains ":" tgt = true ->
         query_has "password" (query req) = false ->
         _get_target self req
         = Raise (TargetSpecificationError "no password given"))
  /\ (forall e,
         _get_target self req = Raise e ->
         (exists msg, e = TargetSpecificationError msg)
         \/ (e = UnboundLocalError /\ _single_server self = false
             /\ query_has "target" (query req) = false)).
Proof.
  split; [|split].
  - intros tgt Hmode Ht Hc. unfold _get_target. rewrite Hmode, Ht.
    now rewrite (str_split_on_no_sep ":" tgt Hc).
  - intros tgt Hmode Ht Hc Hp. unfold _get_target. rewrite Hmode, Ht.
    destruct (str_split_on ":" tgt) as [|ip [|port fs]] eqn:Es.
    + now elim (str_split_on_nonempty ":" tgt).
    + destruct (str_split_on_head ":" tgt ip [] Es) as [Hip Heq].
      simpl in Heq. subst ip. congruence.
    + cbn. apply query_getitem_missing in Hp. now rewrite Hp.
  - apply get_target_raises.
Qed.

Lemma get_target_failures_witness :
  _get_target multi_exporter {| path := "/metrics";
                                query := [("target", "localhost")] |}
  = Raise (TargetSpecificationError
             "target localhost is not a valid targetspecification")
  /\ _get_target multi_exporter {| path := "/metrics";
                                   query := [("target", "localhost:27015")] |}
     = Raise (TargetSpecificationError "no password given").
Proof.
  split.
  - apply (proj1 (get_target_failures multi_exporter
             {| path := "/metrics"; query := [("target", "localhost")] |})
             "localhost"); reflexivity.
  - apply (proj1 (proj2 (get_target_failures multi_exporter
             {| path := "/metrics";
                query := [("target", "localhost:27015")] |}))
             "localhost:27015"); reflexivity.
Defined.

(** ** [request_handler]: what reaches the network *)

(** A request for another path, or one whose target is refused, is
    answered with status 404 and causes no network event; a refused target
    is answered with the message of the refusal. *)
Theorem handler_rejects_without_network (self : SRCDSExporter)
        (srv : rcon_server) (req : request) :
  (path req <> "/metrics" ->
   request_handler self srv req
   = (Ok {| text := Text "invalid path"; status := 404 |}, []))
  /\ (forall msg,
         path req = "/metrics" ->
         _get_target self req = Raise (TargetSpecificationError msg) ->
         request_handler self srv req
         = (Ok {| text := Text ("target specification is invalid: " ++ msg);
                  status := 404 |}, []))
  /\ (forall t,
         snd (request_handler self srv req) <> [] ->
         _get_target self req = Ok t ->
         path req = "/metrics"
         /\ snd (request_handler self srv req)
            = snd (_rcon_query srv (fst (fst t)) (snd (fst t)) (snd t))).
Proof.
  unfold request_handler. split; [|split].
  - intros Hp. apply String.eqb_neq in Hp. now rewrite Hp.
  - intros msg Hp Ht. rewrite Hp, Ht. reflexivity.
  - intros [[ip port] password] Hev Ht.
    destruct (String.eqb (path req) "/metrics") eqn:Hp;
      [|now elim Hev].
    apply String.eqb_eq in Hp. split; [exact Hp|].
    rewrite Ht. cbn [negb fst snd].
    destruct (_rcon_query srv ip port password) as [[[st sts]|e] events].
    + cbn [snd]. destruct (_parse_query sts st (target_metadata ip port))
        as [[u|e] d']; reflexivity.
    + cbn [snd]. destruct (is_TimeoutError e);
        [|destruct (is_ConnectionRefusedError e)]; reflexivity.
Qed.

Lemma handler_rejects_without_network_witness :
  request_handler multi_exporter example_server
                  {| path := "/metrics/"; query := query scrape_request |}
  = (Ok {| text := Text "invalid path"; status := 404 |}, [])
  /\ request_handler single_exporter example_server scrape_request
     = (Ok {| text := Text ("target specification is invalid: "
                            ++ single_mode_message);
              status := 404 |}, []).
Proof.
  split.
  - apply (proj1 (handler_rejects_without_network multi_exporter
             example_server
             {| path := "/metrics/"; query := query scrape_request |})).
    discriminate.
  - apply (proj1 (proj2 (handler_rejects_without_network single_exporter
             example_server scrape_request)) single_mode_message);
      reflexivity.
Defined.

(** ** [_parse_stats]: failures, extra lines, repeated names *)

(** [_parse_stats] either raises with the dictionary untouched or performs
    the assignments of some list of pairs. *)
Lemma parse_stats_shape (stats : string) (d : dict) :
  (exists e, (e = IndexError \/ e = ValueError)
             /\ _parse_stats stats d = (Raise e, d))
  \/ (exists kvs, _parse_stats stats d = (Ok tt, assign_all VFloat kvs d)).
Proof.
  destruct (str_splitlines stats) as [|l0 [|l1 rest]] eqn:E.
  - left. exists IndexError. split; [now left|].
    unfold _parse_stats. rewrite E. reflexivity.
  - left. exists IndexError. split; [now left|].
    unfold _parse_stats. rewrite E. reflexivity.
  - rewrite (parse_stats_unfold stats l0 l1 rest d E).
    destruct (floats_of (str_split l1)) as [fs|e] eqn:Ef.
    + right. eexists. reflexivity.
    + left. exists ValueError. split; [now right|].
      assert (e = ValueError); [|now subst].
      clear -Ef. revert e Ef.
      induction (str_split l1) as [|v vs IH]; simpl; intros e Ef.
      * discriminate.
      * destruct (py_float v) as [f|e0] eqn:Ev; simpl in Ef.
        -- destruct (floats_of vs) as [fs|e1]; simpl in Ef; [discriminate|].
           inversion Ef; subst. now apply IH.
        -- inversion Ef; subst. exact (py_float_raises v e Ev).
Qed.

Lemma parse_stats_short (stats : string) (d : dict) :
  length (str_splitlines stats) < 2 ->
  _parse_stats stats d = (Raise IndexError, d).
Proof.
  intros Hlen. unfold _parse_stats.
  destruct (str_splitlines stats) as [|l0 [|l1 rest]]; simpl in Hlen;
    try reflexivity; lia.
Qed.

(** [_parse_stats] is all or nothing: a stats text of fewer than two lines
    (the empty text included) raises [IndexError]; the only other exception
    is [ValueError]; and whenever it raises, the dictionary is as it was. *)
Theorem parse_stats_all_or_nothing (stats : string) (d : dict) :
  (length (str_splitlines stats) < 2 ->
   _parse_stats stats d = (Raise IndexError, d))
  /\ (forall e, fst (_parse_stats stats d) = Raise e ->
                snd (_parse_stats stats d) = d
                /\ (e = IndexError \/ e = ValueError)).
Proof.
  split.
  - apply parse_stats_short.
  - intros e He.
    destruct (parse_stats_shape stats d) as [[e0 [He0 H]] | [kvs H]];
      rewrite H in *; simpl in *.
    + inversion He; subst. split; [reflexivity | exact He0].
    + discriminate.
Qed.

Lemma parse_stats_all_or_nothing_witness :
  _parse_stats "" [("hostname", VStr "a")]
  = (Raise IndexError, [("hostname", VStr "a")])
  /\ _parse_stats "In Out" [("hostname", VStr "a")]
     = (Raise IndexError, [("hostname", VStr "a")]).
Proof.
  split.
  - apply (proj1 (parse_stats_all_or_nothing "" [("hostname", VStr "a")])).
    simpl. lia.
  - apply (proj1 (parse_stats_all_or_nothing "In Out"
                    [("hostname", VStr "a")])).
    simpl. lia.
Defined.

(** A stats answer of fewer than two lines makes the scrape fail with an
    [IndexError] that leaves [request_handler]: nothing catches it. *)
Theorem short_stats_escapes (self : SRCDSExporter) (srv : rcon_server)
        (req : request) (ip port password : param) (st sts : string)
        (events : list io_event)
        (Hpath : path req = "/metrics")
        (Htarget : _get_target self req = Ok (ip, port, password))
        (Hquery : _rcon_query srv ip port password = (Ok (st, sts), events))
        (Hshort : length (str_splitlines sts) < 2) :
  request_handler self srv req = (Raise IndexError, events).
Proof.
  unfold request_handler. rewrite Hpath, Htarget, Hquery.
  rewrite String.eqb_refl. cbn [negb].
  rewrite (parse_query_stats_raise sts st _ IndexError); [reflexivity|].
  intros d0. now apply parse_stats_short.
Qed.

Lemma short_stats_escapes_witness :
  request_handler multi_exporter
    {| on_create := Ok true; on_status := Ok status_example;
       on_stats := Ok "" |} scrape_request
  = (Raise IndexError,
     [EvCreate (PStr "1.2.3.4") (PStr "27015") (PStr "secret");
      EvCommand "status"; EvCommand "stats"; EvClose]).
Proof.
  apply (short_stats_escapes multi_exporter
           {| on_create := Ok true; on_status := Ok status_example;
              on_stats := Ok "" |} scrape_request
           (PStr "1.2.3.4") (PStr "27015") (PStr "secret")
           status_example "" _ eq_refl eq_refl eq_refl).
  simpl. lia.
Defined.

(** Only the first two lines of the stats text are read: two texts with
    the same first two lines give the same result. *)
Theorem parse_stats_first_two_lines (stats1 stats2 : string) (d : dict)
        (Hsame : firstn 2 (str_splitlines stats1)
                 = firstn 2 (str_splitlines stats2)) :
  _parse_stats stats1 d = _parse_stats stats2 d.
Proof.
  unfold _parse_stats.
  destruct (str_splitlines stats1) as [|a0 [|a1 ra]];
    destruct (str_splitlines stats2) as [|b0 [|b1 rb]];
    simpl in Hsame; try discriminate; try reflexivity;
    inversion Hsame; subst; reflexivity.
Qed.

Lemma parse_stats_first_two_lines_witness :
  _parse_stats ("In Out" ++ newline ++ "1 2" ++ newline ++ "x y z")%string []
  = _parse_stats ("In Out" ++ newline ++ "1 2")%string [].
Proof.
  apply (parse_stats_first_two_lines
           ("In Out" ++ newline ++ "1 2" ++ newline ++ "x y z")%string
           ("In Out" ++ newline ++ "1 2")%string [] eq_refl).
Defined.

Lemma dict_get_set (k k0 : string) (v : pyval) (d : dict) :
  dict_get k0 (dict_set k v d)
  = if String.eqb k k0 then Some v else dict_get k0 d.
Proof.
  destruct (String.eqb k k0) eqn:E.
  - apply String.eqb_eq in E. subst. apply dict_get_set_same.
  - apply String.eqb_neq in E. now apply dict_get_set_other.
Qed.

(** After a loop of assignments a key holds the value of the last pair
    that names it, and what it held before when no pair does. *)
Lemma assign_all_get {X : Type} (f : X -> pyval) (kvs : list (string * X))
      (k : string) (d : dict) :
  dict_get k (assign_all f kvs d)
  = match last_assigned k kvs with
    | Some x => Some (f x)
    | None => dict_get k d
    end.
Proof.
  revert d. induction kvs as [|[k' x] kvs IH]; intros d; [reflexivity|].
  unfold assign_all in *. cbn [fold_left fst snd last_assigned].
  rewrite IH. destruct (last_assigned k kvs); [reflexivity|].
  rewrite dict_get_set. now destruct (String.eqb k' k).
Qed.

(** After [_parse_stats] every key holds the float of the last column whose
    new name it is, whatever it held before (an entry of the status or of
    the target included), and keeps its value when no column has that name. *)
Theorem parse_stats_last_wins (stats l0 l1 : string) (rest : list string)
        (fs : list spec_float) (d : dict) (k : string)
        (Hlines : str_splitlines stats = l0 :: l1 :: rest)
        (Hfs : floats_of (str_split l1) = Ok fs) :
  dict_get k (snd (_parse_stats stats d))
  = match last_assigned k (combine (map stats_rename (str_split l0)) fs) with
    | Some f => Some (VFloat f)
    | None => dict_get k d
    end.
Proof.
  rewrite (parse_stats_unfold stats l0 l1 rest d Hlines), Hfs. cbn [snd].
  apply assign_all_get.
Qed.

Lemma parse_stats_last_wins_witness :
  dict_get "NetIn"
    (snd (_parse_stats ("In In_(KB/s) hostname" ++ newline ++ "1.5 2.5 30")%string
                       [("hostname", VStr "a")]))
  = Some (VFloat float_2_5)
  /\ dict_get "hostname"
       (snd (_parse_stats ("In In_(KB/s) hostname" ++ newline ++ "1.5 2.5 30")%string
                          [("hostname", VStr "a")]))
     = Some (VFloat float_30).
Proof.
  assert (Hfs : floats_of (str_split "1.5 2.5 30")
                = Ok [float_1_5; float_2_5; float_30])
    by (vm_compute; reflexivity).
  split.
  - exact (parse_stats_last_wins
             ("In In_(KB/s) hostname" ++ newline ++ "1.5 2.5 30")%string
             "In In_(KB/s) hostname" "1.5 2.5 30" []
             [float_1_5; float_2_5; float_30] [("hostname", VStr "a")]
             "NetIn" eq_refl Hfs).
  - exact (parse_stats_last_wins
             ("In In_(KB/s) hostname" ++ newline ++ "1.5 2.5 30")%string
             "In In_(KB/s) hostname" "1.5 2.5 30" []
             [float_1_5; float_2_5; float_30] [("hostname", VStr "a")]
             "hostname" eq_refl Hfs).
Defined.

(** ** [_parse_status]: the header lines *)

Lemma str_strip_blank (s : string) :
  str_strip s = "" -> all_chars isspace s = true.
Proof.
  unfold str_strip. induction s as [|c s IH]; simpl; [reflexivity|].
  destruct (isspace c) eqn:E; simpl.
  - exact IH.
  - rewrite E. destruct (str_rstrip s); discriminate.
Qed.

Lemma all_chars_contains (p : ascii -> bool) (c : ascii) (s : string) :
  all_chars p s = true -> str_contains c s = true -> p c = true.
Proof.
  induction s as [|c' s IH]; simpl; [discriminate|].
  intros Hall Hc. apply andb_true_iff in Hall. destruct Hall as [Hc' Hs].
  apply orb_true_iff in Hc. destruct Hc as [Hc | Hc].
  - apply Ascii.eqb_eq in Hc. now subst.
  - now apply IH.
Qed.

Lemma str_contains_app (c : ascii) (a b : string) :
  str_contains c (a ++ String c b) = true.
Proof.
  induction a as [|c' a IH]; simpl.
  - now rewrite Ascii.eqb_refl.
  - rewrite IH. apply orb_true_r.
Qed.

Lemma str_partition_app (c : ascii) (a b : string) :
  str_contains c a = false -> str_partition c (a ++ String c b) = Some (a, b).
Proof.
  induction a as [|c' a IH]; simpl; intros H.
  - now rewrite Ascii.eqb_refl.
  - apply orb_false_iff in H. destruct H as [Hc Ha].
    rewrite Hc, (IH Ha). reflexivity.
Qed.

(** A line with a colon is never blank and is cut at its first colon only:
    the key is the trimmed text before it and the value the trimmed text
    after it, later colons included; so a hostname line stores exactly that
    value. *)
Theorem status_header_split (k v : string) (rest : list string) (d : dict)
        (Hk : str_contains ":" k = false) :
  status_loop ((k ++ String ":" v)%string :: rest) d
  = (status_line (str_strip k) (str_strip v) ;; status_loop rest) d
  /\ (str_strip k = "hostname" ->
      status_loop ((k ++ String ":" v)%string :: rest) d
      = status_loop rest (dict_set "hostname" (VStr (str_strip v)) d)).
Proof.
  assert (Hstep : status_loop ((k ++ String ":" v)%string :: rest) d
                  = (status_line (str_strip k) (str_strip v) ;; status_loop rest) d).
  { cbn [status_loop].
    destruct (String.eqb (str_strip (k ++ String ":" v)) "") eqn:Eb.
    - apply String.eqb_eq in Eb. apply str_strip_blank in Eb.
      pose proof (all_chars_contains isspace ":" _ Eb
                    (str_contains_app ":" k v)) as Hsp.
      discriminate Hsp.
    - unfold str_split1. rewrite (str_partition_app ":" k v Hk).
      reflexivity. }
  split; [exact Hstep|].
  intros Hhost. rewrite Hstep, Hhost. reflexivity.
Qed.

Lemma status_header_split_witness :
  status_loop ["  hostname :  [EU] My: Server  "] []
  = (Ok tt, [("hostname", VStr "[EU] My: Server")]).
Proof.
  exact (proj2 (status_header_split "  hostname " "  [EU] My: Server  "
                  [] [] eq_refl) eq_refl).
Defined.

Lemma status_line_frame (key value k : string) (d : dict) :
  ~ In k status_keys ->
  dict_get k (snd (status_line key value d)) = dict_get k d.
Proof.
  intros Hk. unfold status_keys in Hk. simpl in Hk.
  unfold status_line.
  destruct (String.eqb key "players") eqn:Ep.
  - destruct (re_match players_re value) as [m|] eqn:Em; [|reflexivity].
    apply String.eqb_eq in Ep. subst key.
    pose proof (status_line_players value m d Em) as H.
    unfold status_line in H. cbn [String.eqb Ascii.eqb Bool.eqb] in H.
    rewrite Em in H. rewrite H. cbn [snd].
    rewrite !dict_get_set_other; [reflexivity | | |];
      intros <-; apply Hk; tauto.
  - destruct (String.eqb key "hostname"); [|reflexivity].
    cbn [setitem snd]. unfold setitem. cbn [snd].
    apply dict_get_set_other. intros <-. apply Hk. tauto.
Qed.

(** [_parse_status] assigns to no key but [hostname], [players], [bots]
    and [max_players]: every other key holds what it held before, whatever
    the status text is. *)
Theorem parse_status_frame (status : string) (d : dict) (k : string)
        (Hk : ~ In k status_keys) :
  dict_get k (snd (_parse_status status d)) = dict_get k d.
Proof.
  unfold _parse_status. revert d.
  induction (str_splitlines status) as [|line rest IH]; intros d.
  - reflexivity.
  - rewrite status_loop_step.
    destruct (String.eqb (str_strip line) ""); [reflexivity|].
    destruct (str_contains ":" line); [|reflexivity].
    rewrite IH. now apply status_line_frame.
Qed.

Lemma parse_status_frame_witness :
  dict_get "target"
    (snd (_parse_status ("target: x" ++ newline ++ "hostname: y")%string
                        (target_metadata (PStr "a") (PStr "b"))))
  = Some (VStr "{a}:{b}").
Proof.
  apply (parse_status_frame ("target: x" ++ newline ++ "hostname: y")%string
           (target_metadata (PStr "a") (PStr "b")) "target").
  unfold status_keys. simpl. intuition discriminate.
Defined.

(** A players value that does not begin with a decimal digit (a sign, a
    word, nothing at all) is never matched, and the line changes nothing. *)
Theorem players_needs_leading_digit (value : string) (d : dict)
        (Hstart : starts_with isdecimal value = false) :
  re_match players_re value = None
  /\ status_line "players" value d = (Ok tt, d).
Proof.
  assert (Hno : re_match players_re value = None).
  { destruct (re_match players_re value) as [m|] eqn:Em; [|reflexivity].
    destruct (players_re_captures value m Em)
      as [P [M [HP [_ [[rest Hv] _]]]]].
    subst value. unfold is_numeral in HP. apply andb_true_iff in HP.
    destruct HP as [HP _]. destruct P as [|c P]; simpl in *; congruence. }
  split; [exact Hno|].
  unfold status_line. cbn [String.eqb Ascii.eqb Bool.eqb]. now rewrite Hno.
Qed.

Lemma players_needs_leading_digit_witness :
  status_line "players" "-1 humans, 0 bots (16 max)" [] = (Ok tt, []).
Proof.
  exact (proj2 (players_needs_leading_digit "-1 humans, 0 bots (16 max)" []
                  eq_refl)).
Defined.

(** ** [_parse_query] and the rendered dictionary *)

Lemma keeps_keys_refl (d : dict) : keeps_keys d d.
Proof. split; [exists []; now rewrite app_nil_r | trivial]. Qed.

Lemma keeps_keys_trans (d1 d2 d3 : dict) :
  keeps_keys d1 d2 -> keeps_keys d2 d3 -> keeps_keys d1 d3.
Proof.
  intros [[n1 H1] N1] [[n2 H2] N2]. split.
  - exists (n1 ++ n2). now rewrite H2, H1, app_assoc.
  - auto.
Qed.

Lemma keeps_keys_set (k : string) (v : pyval) (d : dict) :
  keeps_keys d (dict_set k v d).
Proof.
  split; [|apply dict_set_NoDup].
  destruct (in_dec string_dec k (dict_keys d)) as [Hin | Hnin].
  - exists []. now rewrite dict_keys_set_old, app_nil_r.
  - exists [k]. now apply dict_keys_set_new.
Qed.

Lemma keeps_keys_assign_all {X : Type} (f : X -> pyval)
      (kvs : list (string * X)) (d : dict) :
  keeps_keys d (assign_all f kvs d).
Proof.
  revert d. induction kvs as [|[k x] kvs IH]; intros d.
  - apply keeps_keys_refl.
  - apply (keeps_keys_trans d (dict_set k (f x) d)).
    + apply keeps_keys_set.
    + apply IH.
Qed.

Lemma keeps_keys_status_line (key value : string) (d : dict) :
  keeps_keys d (snd (status_line key value d)).
Proof.
  unfold status_line.
  destruct (String.eqb key "players").
  - destruct (re_match players_re value); [|apply keeps_keys_refl].
    rewrite for_each_setitem. apply keeps_keys_assign_all.
  - destruct (String.eqb key "hostname"); [|apply keeps_keys_refl].
    apply keeps_keys_set.
Qed.

Lemma keeps_keys_parse_status (status : string) (d : dict) :
  keeps_keys d (snd (_parse_status status d)).
Proof.
  unfold _parse_status. revert d.
  induction (str_splitlines status) as [|line rest IH]; intros d.
  - apply keeps_keys_refl.
  - rewrite status_loop_step.
    destruct (String.eqb (str_strip line) ""); [apply keeps_keys_refl|].
    destruct (str_contains ":" line); [|apply keeps_keys_refl].
    eapply keeps_keys_trans; [apply keeps_keys_status_line | apply IH].
Qed.

Lemma keeps_keys_parse_stats (stats : string) (d : dict) :
  keeps_keys d (snd (_parse_stats stats d)).
Proof.
  destruct (parse_stats_shape stats d) as [[e [_ H]] | [kvs H]]; rewrite H.
  - apply keeps_keys_refl.
  - apply keeps_keys_assign_all.
Qed.

Lemma keeps_keys_parse_query (stats status : string) (d : dict) :
  keeps_keys d (snd (_parse_query stats status d)).
Proof.
  unfold _parse_query, bindM.
  pose proof (keeps_keys_parse_status status d) as Hs.
  pose proof (status_loop_returns (str_splitlines status) d) as Hr.
  unfold _parse_status in *.
  destruct (status_loop (str_splitlines status) d) as [r d1].
  simpl in Hr. subst r. cbn [snd] in Hs.
  apply (keeps_keys_trans d d1); [exact Hs|].
  apply keeps_keys_parse_stats.
Qed.

(** [_parse_query] never removes or reorders a key: the keys of the
    dictionary it is given stay at the front, in their order, new keys come
    after them, and distinct keys stay distinct; this also holds for the
    dictionary it leaves behind when it raises. *)
Theorem parse_query_keeps_keys (stats status : string) (d : dict) :
  (exists new,
      dict_keys (snd (_parse_query stats status d)) = dict_keys d ++ new)
  /\ (NoDup (dict_keys d) ->
      NoDup (dict_keys (snd (_parse_query stats status d)))).
Proof.
  exact (keeps_keys_parse_query stats status d).
Qed.

Lemma parse_query_keeps_keys_witness :
  NoDup (dict_keys
           (snd (_parse_query stats_example status_example
                   (target_metadata (PStr "a") (PStr "b"))))).
Proof.
  apply (proj2 (parse_query_keeps_keys stats_example status_example
                  (target_metadata (PStr "a") (PStr "b")))).
  simpl. repeat constructor; simpl; intuition discriminate.
Defined.

(** Whenever [request_handler] renders the template, the status is 200 and
    the dictionary it renders starts with the keys [ip], [port], [target],
    in this order, and has no key twice. *)
Theorem rendered_dictionary_keys (self : SRCDSExporter) (srv : rcon_server)
        (req : request) (d' : dict) (code : Z) (events : list io_event)
        (Hrender : request_handler self srv req
                   = (Ok {| text := Rendered d'; status := code |}, events)) :
  code = 200%Z
  /\ (exists new, dict_keys d' = "ip" :: "port" :: "target" :: new)
  /\ NoDup (dict_keys d').
Proof.
  unfold request_handler in Hrender.
  destruct (negb (String.eqb (path req) "/metrics")); [discriminate|].
  destruct (_get_target self req) as [[[ip port] password]|e].
  - destruct (_rcon_query srv ip port password) as [[[st sts]|e] ev].
    + destruct (keeps_keys_parse_query sts st (target_metadata ip port))
        as [[new Hk] Hnd].
      destruct (_parse_query sts st (target_metadata ip port)) as [[u|e] d1];
        [|discriminate].
      inversion Hrender; subst. cbn [snd] in *.
      split; [reflexivity|]. split; [now exists new|].
      apply Hnd. simpl. repeat constructor; simpl; intuition discriminate.
    + destruct (is_TimeoutError e); [discriminate|].
      destruct (is_ConnectionRefusedError e); discriminate.
  - destruct e; discriminate.
Qed.

Lemma rendered_dictionary_keys_witness :
  exists new,
    dict_keys (snd (_parse_query stats_example status_example
                      (target_metadata (PStr "1.2.3.4") (PStr "27015"))))
    = "ip" :: "port" :: "target" :: new.
Proof.
  exact (proj1 (proj2 (rendered_dictionary_keys multi_exporter example_server
                         scrape_request _ 200 _ eq_refl))).
Defined.



(** ** [start_webserver]: the mode of the exporter *)

(** Started with [--password] alone (not empty), the exporter is in
    single-server mode and a request without parameters is resolved to the
    default server [localhost], port 27015, and that password.  Started
    without a password, with an empty one, or with [--server_port 0], it is
    in multi-target mode with no configured server at all, whatever address
    the command line gave. *)
Theorem start_webserver_mode (args : Namespace) :
  (forall password req,
      password <> "" ->
      query_has "target" (query req) = false ->
      query_has "password" (query req) = false ->
      _get_target (fst (fst (start_webserver (args_with_password password))))
                  req
      = Ok (PStr "localhost", PInt 27015, PStr password))
  /\ (truthy (args_password args) = false
      \/ truthy (args_server_port args) = false
      \/ truthy (args_server_address args) = false ->
      fst (fst (start_webserver args)) = multi_exporter)
  /\ (truthy (args_password args) = true ->
      truthy (args_server_port args) = true ->
      truthy (args_server_address args) = true ->
      forall req,
        query_has "target" (query req) = false ->
        query_has "password" (query req) = false ->
        _get_target (fst (fst (start_webserver args))) req
        = Ok (args_server_address args, args_server_port args,
              args_password args)).
Proof.
  split; [|split].
  - intros password req Hpw Ht Hp.
    unfold start_webserver, args_with_password. cbn [fst truthy default_args
      args_server_address args_server_port args_password].
    apply String.eqb_neq in Hpw. rewrite Hpw. cbn.
    unfold _get_target. cbn. now rewrite Ht, Hp.
  - intros H. unfold start_webserver. cbn [fst].
    destruct H as [H | [H | H]]; rewrite H;
      rewrite ?andb_false_r; reflexivity.
  - intros Hpw Hsp Hsa req Ht Hp. unfold start_webserver. cbn [fst].
    rewrite Hpw, Hsp, Hsa. cbn. unfold _get_target. cbn. now rewrite Ht, Hp.
Qed.

Lemma start_webserver_mode_witness :
  _get_target (fst (fst (start_webserver (args_with_password "secret"))))
              {| path := "/metrics"; query := [] |}
  = Ok (PStr "localhost", PInt 27015, PStr "secret")
  /\ fst (fst (start_webserver default_args)) = multi_exporter.
Proof.
  split.
  - apply (proj1 (start_webserver_mode default_args) "secret"
             {| path := "/metrics"; query := [] |});
      [discriminate | reflexivity | reflexivity].
  - apply (proj1 (proj2 (start_webserver_mode default_args))).
    left. reflexivity.
Defined.

(** ** [request_handler]: every outcome *)


